(** * Habitto colour-set generators

    A shallow embedding of the two asset generators
    [create_color_sets.py] (light-only documents) and
    [create_dark_mode_colors.py] (light + dark documents), with the
    Python primitives they rely on: [str.lstrip], slicing, [int(s, 16)],
    the format specification [02X], [json.dump(..., indent=2)],
    [os.makedirs(..., exist_ok=True)] and [open(..., "w")].

    Python strings are modelled by [string]; a character stands for the
    code point of the same number, so the model covers the strings whose
    code points are below 256. *)

From Stdlib Require Import ZArith String Ascii List Bool Lia DecimalString.
From stdpp Require Import gmap strings list fin_maps.

Set Warnings "-register-all".

Local Open Scope string_scope.
Local Open Scope Z_scope.

(** ** Exceptions and results *)

Inductive exn : Type :=
| ValueError
| KeyError
| FileExistsError
| FileNotFoundError
| NotADirectoryError
| IsADirectoryError.

Inductive result (A : Type) : Type :=
| Ok (a : A)
| Raise (e : exn).

Arguments Ok {A} a.
Arguments Raise {A} e.

#[global] Instance result_ret : MRet result := fun A a => Ok a.

#[global] Instance result_bind : MBind result := fun A B k m =>
  match m with
  | Ok a => k a
  | Raise e => Raise e
  end.

#[global] Instance result_fmap : FMap result := fun A B f m =>
  match m with
  | Ok a => Ok (f a)
  | Raise e => Raise e
  end.

Definition is_ok {A : Type} (m : result A) : bool :=
  match m with Ok _ => true | Raise _ => false end.

(** ** Python string primitives *)

Module Py.

Definition code (c : ascii) : Z := Z.of_N (N_of_ascii c).

Definition in_range (lo hi : ascii) (c : ascii) : bool :=
  (code lo <=? code c) && (code c <=? code hi).

(** [s.lstrip(chars)]: drops every leading character that occurs in
    [chars]. *)
Fixpoint mem (c : ascii) (chars : string) : bool :=
  match chars with
  | EmptyString => false
  | String d chars' => Ascii.eqb c d || mem c chars'
  end.

Fixpoint lstrip (chars : string) (s : string) : string :=
  match s with
  | EmptyString => EmptyString
  | String c s' => if mem c chars then lstrip chars s' else s
  end.

(** [s[i:j]] for constant bounds [0 <= i <= j]: out-of-range bounds are
    clipped to the string, never an error. *)
Fixpoint drop (n : nat) (s : string) : string :=
  match n, s with
  | O, _ => s
  | S _, EmptyString => EmptyString
  | S n', String _ s' => drop n' s'
  end.

Fixpoint take (n : nat) (s : string) : string :=
  match n, s with
  | O, _ => EmptyString
  | S _, EmptyString => EmptyString
  | S n', String c s' => String c (take n' s')
  end.

Definition slice (i j : nat) (s : string) : string := take (j - i) (drop i s).

(** *** [int(s, 16)]

    CPython first rewrites a string that is not pure ASCII
    ([_PyUnicode_TransformDecimalAndSpaceToASCII]): a code point below 127
    is kept, Unicode white space becomes a blank, a Unicode decimal digit
    becomes its ASCII digit, and anything else becomes ['?'].  Below 256 the
    only non-ASCII white space is U+0085 and U+00A0 and there is no
    non-ASCII decimal digit. *)

Definition is_ascii (c : ascii) : bool := code c <? 128.

Fixpoint all_ascii (s : string) : bool :=
  match s with
  | EmptyString => true
  | String c s' => is_ascii c && all_ascii s'
  end.

Definition unicode_isspace_high (c : ascii) : bool :=
  (code c =? 133) || (code c =? 160).

Definition transform_char (c : ascii) : ascii :=
  if code c <? 127 then c
  else if unicode_isspace_high c then " "%char
  else "?"%char.

Fixpoint map_string (f : ascii -> ascii) (s : string) : string :=
  match s with
  | EmptyString => EmptyString
  | String c s' => String (f c) (map_string f s')
  end.

Definition transform_decimal_and_space (s : string) : string :=
  if all_ascii s then s else map_string transform_char s.

(** [Py_ISSPACE]: tab, line feed, vertical tab, form feed, carriage
    return and blank. *)
Definition ISSPACE (c : ascii) : bool :=
  ((9 <=? code c) && (code c <=? 13)) || (code c =? 32).

(** [_PyLong_DigitValue]: the value of a digit in base up to 36, and 37
    for every other character. *)
Definition DigitValue (c : ascii) : Z :=
  if in_range "0" "9" c then code c - 48
  else if in_range "a" "z" c then code c - 97 + 10
  else if in_range "A" "Z" c then code c - 65 + 10
  else 37.

Fixpoint skip_space (s : string) : string :=
  match s with
  | String c s' => if ISSPACE c then skip_space s' else s
  | EmptyString => s
  end.

(** The digit loop of [long_from_binary_base]: consumes digits below
    [base] and single underscores between them; [prev] is the character
    consumed last, [acc] the value so far, [any] whether a character was
    consumed.  A doubled or a trailing underscore is a syntax error. *)
Fixpoint scan_digits (base : Z) (prev : ascii) (acc : Z) (any : bool)
    (s : string) : option (Z * bool * string) :=
  let stop := if Ascii.eqb prev "_" then None else Some (acc, any, s) in
  match s with
  | EmptyString => stop
  | String c s' =>
      if Ascii.eqb c "_" then
        if Ascii.eqb prev "_" then None
        else scan_digits base c acc true s'
      else if DigitValue c <? base then
        scan_digits base c (acc * base + DigitValue c) true s'
      else stop
  end.

(** [PyLong_FromString] for base 16: leading white space, an optional
    sign, an optional [0x] or [0X] prefix (after which one underscore is
    allowed), the digits, trailing white space, and nothing else. *)
Definition skip_prefix16 (s : string) : string :=
  match s with
  | String "0" (String c s') =>
      if Ascii.eqb c "x" || Ascii.eqb c "X" then
        match s' with
        | String "_" s'' => s''
        | _ => s'
        end
      else s
  | _ => s
  end.

Definition long_from_string16 (s : string) : result Z :=
  let s1 := skip_space s in
  let '(sign, s2) :=
    match s1 with
    | String "+" t => (1, t)
    | String "-" t => (-1, t)
    | _ => (1, s1)
    end in
  let s3 := skip_prefix16 s2 in
  match s3 with
  | String "_" _ => Raise ValueError
  | _ =>
      match scan_digits 16 zero 0 false s3 with
      | None => Raise ValueError
      | Some (_, false, _) => Raise ValueError
      | Some (v, true, rest) =>
          match skip_space rest with
          | EmptyString => Ok (sign * v)
          | String _ _ => Raise ValueError
          end
      end
  end.

Definition int16 (s : string) : result Z :=
  long_from_string16 (transform_decimal_and_space s).

(** *** The format specification [02X]

    Upper-case hexadecimal digits of the magnitude, padded with zeros
    between the sign and the digits up to a total width of two. *)

Definition hex_upper_char (d : Z) : ascii :=
  if d <? 10 then ascii_of_N (Z.to_N (48 + d))
  else ascii_of_N (Z.to_N (65 + d - 10)).

Fixpoint hex_upper_digits (fuel : nat) (n : Z) (acc : string) : string :=
  match fuel with
  | O => acc
  | S fuel' =>
      let acc' := String (hex_upper_char (n mod 16)) acc in
      if n / 16 =? 0 then acc' else hex_upper_digits fuel' (n / 16) acc'
  end.

Definition hex_upper (n : Z) : string :=
  hex_upper_digits (S (Z.to_nat (Z.log2 n))) n EmptyString.

Fixpoint zeros (n : nat) : string :=
  match n with
  | O => EmptyString
  | S n' => String "0" (zeros n')
  end.

Definition format_02X (z : Z) : string :=
  let sign := if z <? 0 then "-" else "" in
  let digits := hex_upper (Z.abs z) in
  sign +:+ zeros (2 - String.length sign - String.length digits) +:+ digits.

(** [s.upper()] on the ASCII letters. *)
Definition upper_char (c : ascii) : ascii :=
  if in_range "a" "z" c then ascii_of_N (Z.to_N (code c - 32)) else c.

Definition upper (s : string) : string := map_string upper_char s.

End Py.

(** ** The hex decoder (identical in both scripts) *)

Definition hex_to_rgb (hex_color : string) : result (Z * Z * Z) :=
  let hex_color := Py.lstrip "#" hex_color in
  r ← Py.int16 (Py.slice 0 2 hex_color);
  g ← Py.int16 (Py.slice 2 4 hex_color);
  b ← Py.int16 (Py.slice 4 6 hex_color);
  Ok (r, g, b).

(** ** JSON values and [json.dumps(obj, indent=2)]

    A Python [dict] keeps its items in insertion order, so an object is
    the list of its items in the order of the dictionary display. *)

Inductive json : Type :=
| JStr (s : string)
| JInt (n : Z)
| JList (items : list json)
| JDict (items : list (string * json)).

Module Json.

Fixpoint assoc {V : Type} (k : string) (items : list (string * V)) : option V :=
  match items with
  | [] => None
  | (k', v) :: items' => if String.eqb k k' then Some v else assoc k items'
  end.

(** [obj[k]] read as "the field [k], if [obj] is an object that has it". *)
Definition field (k : string) (obj : json) : option json :=
  match obj with
  | JDict items => assoc k items
  | _ => None
  end.

Definition elements (obj : json) : option (list json) :=
  match obj with
  | JList xs => Some xs
  | _ => None
  end.

Definition dquote : ascii := "034"%char.
Definition backslash : ascii := "092"%char.
Definition newline : ascii := "010"%char.

Definition hex_lower_char (d : Z) : ascii :=
  if d <? 10 then ascii_of_N (Z.to_N (48 + d))
  else ascii_of_N (Z.to_N (97 + d - 10)).

(** [py_encode_basestring_ascii]: the characters from blank to tilde
    stand for themselves, except the quote and the backslash; the usual
    control characters have a short escape and the rest is [\u00xx]. *)
Definition escape_char (c : ascii) : string :=
  let n := Py.code c in
  if Ascii.eqb c dquote then String backslash (String dquote "")
  else if Ascii.eqb c backslash then String backslash (String backslash "")
  else if n =? 10 then String backslash "n"
  else if n =? 13 then String backslash "r"
  else if n =? 9 then String backslash "t"
  else if n =? 12 then String backslash "f"
  else if n =? 8 then String backslash "b"
  else if (32 <=? n) && (n <=? 126) then String c ""
  else String backslash
         (String "u" (String "0" (String "0"
           (String (hex_lower_char (n / 16))
             (String (hex_lower_char (n mod 16)) ""))))).

Fixpoint escape (s : string) : string :=
  match s with
  | EmptyString => EmptyString
  | String c s' => escape_char c +:+ escape s'
  end.

Definition encode_str (s : string) : string :=
  String dquote (escape s +:+ String dquote "").

Definition int_str (n : Z) : string := NilZero.string_of_int (Z.to_int n).

Fixpoint spaces (n : nat) : string :=
  match n with
  | O => EmptyString
  | S n' => String " " (spaces n')
  end.

Definition newline_indent (indent level : nat) : string :=
  String newline (spaces (indent * level)).

(** The encoder with an indentation: items separated by a comma and a
    fresh line, a key separated from its value by a colon and a blank,
    and empty containers written without a line break. *)
Fixpoint iterencode (indent level : nat) (o : json) : string :=
  match o with
  | JStr s => encode_str s
  | JInt n => int_str n
  | JList [] => "[]"
  | JList (x :: xs) =>
      let nl := newline_indent indent (S level) in
      "[" +:+ nl +:+ iterencode indent (S level) x +:+
      (fix rest (ys : list json) : string :=
         match ys with
         | [] => EmptyString
         | y :: ys' => "," +:+ nl +:+ iterencode indent (S level) y +:+ rest ys'
         end) xs +:+
      newline_indent indent level +:+ "]"
  | JDict [] => "{}"
  | JDict ((k, v) :: kvs) =>
      let nl := newline_indent indent (S level) in
      "{" +:+ nl +:+ encode_str k +:+ ": " +:+ iterencode indent (S level) v +:+
      (fix rest (ys : list (string * json)) : string :=
         match ys with
         | [] => EmptyString
         | (k', v') :: ys' =>
             "," +:+ nl +:+ encode_str k' +:+ ": " +:+
             iterencode indent (S level) v' +:+ rest ys'
         end) kvs +:+
      newline_indent indent level +:+ "}"
  end.

Definition dumps (indent : nat) (o : json) : string := iterencode indent 0 o.

End Json.

(** ** The file system and the console

    A file system maps a path, as the script writes it, to a directory or
    to a file with its content; the working directory is the root of the
    relative paths and always exists.  [stdout] holds the printed lines.
    An exception ends the run: [Raise] carries no state. *)

Inductive node : Type :=
| Dir
| File (content : string).

Record world : Type := World {
  fs : gmap string node;
  stdout : list string
}.

Definition print (line : string) (w : world) : world :=
  {| fs := fs w; stdout := stdout w ++ [line] |}.

Definition set_fs (f : gmap string node) (w : world) : world :=
  {| fs := f; stdout := stdout w |}.

(** [for x in xs: body] with the state threaded through. *)
Fixpoint for_each {A S : Type} (xs : list A) (body : A -> S -> result S)
    (s : S) : result S :=
  match xs with
  | [] => Ok s
  | x :: xs' => s' ← body x s; for_each xs' body s'
  end.

(** [d[k]] on a dictionary display. *)
Definition getitem {V : Type} (d : list (string * V)) (k : string) : result V :=
  match Json.assoc k d with
  | Some v => Ok v
  | None => Raise KeyError
  end.

Module Os.

(** The proper ancestors of a relative path, outermost first:
    [a/b/c] has the ancestors [a] and [a/b]. *)
Fixpoint ancestors_from (pre : string) (sep : bool) (s : string) : list string :=
  match s with
  | EmptyString => []
  | String c s' =>
      if Ascii.eqb c "/" then
        (if sep then [] else [pre]) ++ ancestors_from (pre +:+ "/") true s'
      else ancestors_from (pre +:+ String c "") false s'
  end.

Definition ancestors (p : string) : list string := ancestors_from "" true p.

(** One level of [os.makedirs(name, exist_ok=True)]: a missing directory
    is created, an existing one is accepted, and a file in the way is an
    error ([NotADirectoryError] below the file, [FileExistsError] at the
    leaf). *)
Definition mkdir_exist_ok (leaf : bool) (p : string) (f : gmap string node)
    : result (gmap string node) :=
  match f !! p with
  | None => Ok (<[p := Dir]> f)
  | Some Dir => Ok f
  | Some (File _) => Raise (if leaf then FileExistsError else NotADirectoryError)
  end.

Definition makedirs (name : string) (f : gmap string node)
    : result (gmap string node) :=
  f' ← for_each (ancestors name) (mkdir_exist_ok false) f;
  mkdir_exist_ok true name f'.

(** [with open(p, "w") as f: f.write(text)]: the parent must be a
    directory and [p] must not be one; the file then holds exactly
    [text], whatever it held before. *)
Definition write_text (p text : string) (f : gmap string node)
    : result (gmap string node) :=
  match last (ancestors p) with
  | Some d =>
      match f !! d with
      | Some Dir =>
          match f !! p with
          | Some Dir => Raise IsADirectoryError
          | _ => Ok (<[p := File text]> f)
          end
      | Some (File _) => Raise NotADirectoryError
      | None => Raise FileNotFoundError
      end
  | None =>
      match f !! p with
      | Some Dir => Raise IsADirectoryError
      | _ => Ok (<[p := File text]> f)
      end
  end.

End Os.

(** ** [create_color_sets.py]: one appearance per colour *)

Module ColorSets.

(** The colour table, in the order of the dictionary display. *)
Definition colors : list (string * list (string * string)) :=
  [ ("Yellow",
      [ ("yellow50", "#FEF6E6");
        ("yellow100", "#FCE2B0");
        ("yellow200", "#FAD58A");
        ("yellow300", "#F8C154");
        ("yellow400", "#F7B533");
        ("yellow500", "#F5A300");
        ("yellow600", "#DF9400");
        ("yellow700", "#AE7400");
        ("yellow800", "#875A00");
        ("yellow900", "#674400") ]);
    ("Green",
      [ ("green50", "#EBF9EE");
        ("green100", "#C0EECC");
        ("green200", "#A2E5B3");
        ("green300", "#77D990");
        ("green400", "#5DD27A");
        ("green500", "#34C759");
        ("green600", "#2FB551");
        ("green700", "#258D3F");
        ("green800", "#1D6D31");
        ("green900", "#165425") ]);
    ("Red",
      [ ("red50", "#FCEBEE");
        ("red100", "#F7C0C9");
        ("red200", "#F3A2AF");
        ("red300", "#EE778A");
        ("red400", "#EA5D74");
        ("red500", "#E53451");
        ("red600", "#D02F4A");
        ("red700", "#A3253A");
        ("red800", "#7E1D2D");
        ("red900", "#601622") ]);
    ("Navy",
      [ ("navy50", "#E8E9ED");
        ("navy100", "#B9BCC8");
        ("navy200", "#979CAD");
        ("navy300", "#676E87");
        ("navy400", "#495270");
        ("navy500", "#1C274C");
        ("navy600", "#192345");
        ("navy700", "#141C36");
        ("navy800", "#0F152A");
        ("navy900", "#0C1020") ]);
    ("PastelBlue",
      [ ("pastelBlue50", "#F4F6FF");
        ("pastelBlue100", "#EDF1FF");
        ("pastelBlue300", "#B3C4FF");
        ("pastelBlue400", "#A4B9FF");
        ("pastelBlue500", "#8DA7FF");
        ("pastelBlue600", "#8098E8");
        ("pastelBlue700", "#6477B5");
        ("pastelBlue800", "#4E5C8C");
        ("pastelBlue900", "#3B466B") ]);
    ("Grey",
      [ ("grey50", "#F9F9F9");
        ("grey100", "#ECECEF");
        ("grey200", "#E3E3E7");
        ("grey300", "#D7D7DC");
        ("grey400", "#CFCFD5");
        ("grey500", "#C3C3CB");
        ("grey600", "#B1B1B9");
        ("grey700", "#8A8A90");
        ("grey800", "#6B6B70");
        ("grey900", "#525255");
        ("greyBlack", "#191919");
        ("greyWhite", "#FFFFFF") ]) ].

Definition create_color_set_json (color_name hex_value : string) : result json :=
  '(r, g, b) ← hex_to_rgb hex_value;
  Ok (JDict
    [ ("colors", JList
        [ JDict
            [ ("color", JDict
                [ ("color-space", JStr "srgb");
                  ("components", JDict
                    [ ("alpha", JStr "1.000");
                      ("blue", JStr ("0x" +:+ Py.format_02X b));
                      ("green", JStr ("0x" +:+ Py.format_02X g));
                      ("red", JStr ("0x" +:+ Py.format_02X r)) ]) ]);
              ("idiom", JStr "universal") ] ]);
      ("info", JDict
        [ ("author", JStr "xcode");
          ("version", JInt 1) ]) ]).

Definition base_path : string := "Assets/Colors.xcassets".

(** The main loop: one [.colorset] directory and one [Contents.json] per
    colour variant, then the closing message. *)
Definition main (w : world) : result world :=
  w ← for_each colors (fun '(color_family, color_variants) w =>
        for_each color_variants (fun '(color_name, hex_value) w =>
          let color_dir := base_path +:+ "/" +:+ color_name +:+ ".colorset" in
          f ← Os.makedirs color_dir (fs w);
          json_content ← create_color_set_json color_name hex_value;
          f ← Os.write_text (color_dir +:+ "/Contents.json")
                (Json.dumps 2 json_content) f;
          Ok (print ("Created " +:+ color_dir +:+ "/Contents.json")
                (set_fs f w))) w) w;
  Ok (print "All color sets created successfully!" w).

End ColorSets.

(** ** [create_dark_mode_colors.py]: a light and a dark appearance *)

Module DarkMode.

(** The colour table; every variant is itself a dictionary with the keys
    [light] and [dark]. *)
Definition colors : list (string * list (string * list (string * string))) :=
  [ ("Yellow",
      [ ("yellow50", [("light", "#FEF6E6"); ("dark", "#FEF6E6")]);
        ("yellow100", [("light", "#FCE2B0"); ("dark", "#FCE2B0")]);
        ("yellow200", [("light", "#FAD58A"); ("dark", "#FAD58A")]);
        ("yellow300", [("light", "#F8C154"); ("dark", "#F8C154")]);
        ("yellow400", [("light", "#F7B533"); ("dark", "#F7B533")]);
        ("yellow500", [("light", "#F5A300"); ("dark", "#F5A300")]);
        ("yellow600", [("light", "#DF9400"); ("dark", "#DF9400")]);
        ("yellow700", [("light", "#AE7400"); ("dark", "#AE7400")]);
        ("yellow800", [("light", "#875A00"); ("dark", "#875A00")]);
        ("yellow900", [("light", "#674400"); ("dark", "#674400")]) ]);
    ("Green",
      [ ("green50", [("light", "#EBF9EE"); ("dark", "#EBF9EE")]);
        ("green100", [("light", "#C0EECC"); ("dark", "#C0EECC")]);
        ("green200", [("light", "#A2E5B3"); ("dark", "#A2E5B3")]);
        ("green300", [("light", "#77D990"); ("dark", "#77D990")]);
        ("green400", [("light", "#5DD27A"); ("dark", "#5DD27A")]);
        ("green500", [("light", "#34C759"); ("dark", "#34C759")]);
        ("green600", [("light", "#2FB551"); ("dark", "#2FB551")]);
        ("green700", [("light", "#258D3F"); ("dark", "#258D3F")]);
        ("green800", [("light", "#1D6D31"); ("dark", "#1D6D31")]);
        ("green900", [("light", "#165425"); ("dark", "#165425")]) ]);
    ("Red",
      [ ("red50", [("light", "#FCEBEE"); ("dark", "#FCEBEE")]);
        ("red100", [("light", "#F7C0C9"); ("dark", "#F7C0C9")]);
        ("red200", [("light", "#F3A2AF"); ("dark", "#F3A2AF")]);
        ("red300", [("light", "#EE778A"); ("dark", "#EE778A")]);
        ("red400", [("light", "#EA5D74"); ("dark", "#EA5D74")]);
        ("red500", [("light", "#E53451"); ("dark", "#E53451")]);
        ("red600", [("light", "#D02F4A"); ("dark", "#D02F4A")]);
        ("red700", [("light", "#A3253A"); ("dark", "#A3253A")]);
        ("red800", [("light", "#7E1D2D"); ("dark", "#7E1D2D")]);
        ("red900", [("light", "#601622"); ("dark", "#601622")]) ]);
    ("Navy",
      [ ("navy50", [("light", "#E8E9ED"); ("dark", "#E8E9ED")]);
        ("navy100", [("light", "#B9BCC8"); ("dark", "#B9BCC8")]);
        ("navy200", [("light", "#979CAD"); ("dark", "#979CAD")]);
        ("navy300", [("light", "#676E87"); ("dark", "#676E87")]);
        ("navy400", [("light", "#495270"); ("dark", "#495270")]);
        ("navy500", [("light", "#1C274C"); ("dark", "#1C274C")]);
        ("navy600", [("light", "#192345"); ("dark", "#192345")]);
        ("navy700", [("light", "#141C36"); ("dark", "#141C36")]);
        ("navy800", [("light", "#0F152A"); ("dark", "#0F152A")]);
        ("navy900", [("light", "#0C1020"); ("dark", "#0C1020")]) ]);
    ("PastelBlue",
      [ ("pastelBlue50", [("light", "#F4F6FF"); ("dark", "#F4F6FF")]);
        ("pastelBlue100", [("light", "#EDF1FF"); ("dark", "#EDF1FF")]);
        ("pastelBlue300", [("light", "#B3C4FF"); ("dark", "#B3C4FF")]);
        ("pastelBlue400", [("light", "#A4B9FF"); ("dark", "#A4B9FF")]);
        ("pastelBlue500", [("light", "#8DA7FF"); ("dark", "#8DA7FF")]);
        ("pastelBlue600", [("light", "#8098E8"); ("dark", "#8098E8")]);
        ("pastelBlue700", [("light", "#6477B5"); ("dark", "#6477B5")]);
        ("pastelBlue800", [("light", "#4E5C8C"); ("dark", "#4E5C8C")]);
        ("pastelBlue900", [("light", "#3B466B"); ("dark", "#3B466B")]) ]);
    ("Grey",
      [ ("grey50", [("light", "#F9F9F9"); ("dark", "#F9F9F9")]);
        ("grey100", [("light", "#ECECEF"); ("dark", "#ECECEF")]);
        ("grey200", [("light", "#E3E3E7"); ("dark", "#E3E3E7")]);
        ("grey300", [("light", "#D7D7DC"); ("dark", "#D7D7DC")]);
        ("grey400", [("light", "#CFCFD5"); ("dark", "#CFCFD5")]);
        ("grey500", [("light", "#C3C3CB"); ("dark", "#C3C3CB")]);
        ("grey600", [("light", "#B1B1B9"); ("dark", "#B1B1B9")]);
        ("grey700", [("light", "#8A8A90"); ("dark", "#8A8A90")]);
        ("grey800", [("light", "#6B6B70"); ("dark", "#6B6B70")]);
        ("grey900", [("light", "#525255"); ("dark", "#525255")]);
        ("greyBlack", [("light", "#191919"); ("dark", "#191919")]);
        ("greyWhite", [("light", "#FFFFFF"); ("dark", "#FFFFFF")]) ]) ].

Definition create_color_set_json (color_name light_hex dark_hex : string)
    : result json :=
  '(light_r, light_g, light_b) ← hex_to_rgb light_hex;
  '(dark_r, dark_g, dark_b) ← hex_to_rgb dark_hex;
  Ok (JDict
    [ ("colors", JList
        [ JDict
            [ ("color", JDict
                [ ("color-space", JStr "srgb");
                  ("components", JDict
                    [ ("alpha", JStr "1.000");
                      ("blue", JStr ("0x" +:+ Py.format_02X light_b));
                      ("green", JStr ("0x" +:+ Py.format_02X light_g));
                      ("red", JStr ("0x" +:+ Py.format_02X light_r)) ]) ]);
              ("idiom", JStr "universal") ];
          JDict
            [ ("appearances", JList
                [ JDict
                    [ ("appearance", JStr "luminosity");
                      ("value", JStr "dark") ] ]);
              ("color", JDict
                [ ("color-space", JStr "srgb");
                  ("components", JDict
                    [ ("alpha", JStr "1.000");
                      ("blue", JStr ("0x" +:+ Py.format_02X dark_b));
                      ("green", JStr ("0x" +:+ Py.format_02X dark_g));
                      ("red", JStr ("0x" +:+ Py.format_02X dark_r)) ]) ]);
              ("idiom", JStr "universal") ] ]);
      ("info", JDict
        [ ("author", JStr "xcode");
          ("version", JInt 1) ]) ]).

Definition base_path : string := "Assets/Colors.xcassets".

Definition main (w : world) : result world :=
  w ← for_each colors (fun '(color_family, color_variants) w =>
        for_each color_variants (fun '(color_name, color_modes) w =>
          let color_dir := base_path +:+ "/" +:+ color_name +:+ ".colorset" in
          f ← Os.makedirs color_dir (fs w);
          light_hex ← getitem color_modes "light";
          dark_hex ← getitem color_modes "dark";
          json_content ← create_color_set_json color_name light_hex dark_hex;
          f ← Os.write_text (color_dir +:+ "/Contents.json")
                (Json.dumps 2 json_content) f;
          Ok (print ("Created " +:+ color_dir +:+
                     "/Contents.json (light + dark mode)")
                (set_fs f w))) w) w;
  Ok (print "All color sets with dark mode support created successfully!" w).

End DarkMode.

(** * Vocabulary of the specification *)

(** ** Enumeration of the 256 characters

    Facts about one or two characters are checked on every character by
    evaluation and then used at an arbitrary one. *)

Definition all_chars : list ascii := map ascii_of_nat (seq 0 256).

Definition forall_char (P : ascii -> bool) : bool := forallb P all_chars.

(** ** Hex digits and hex colours *)

Definition is_hex_digit (c : ascii) : bool :=
  Py.in_range "0" "9" c || Py.in_range "a" "f" c || Py.in_range "A" "F" c.

Fixpoint all_hex (s : string) : bool :=
  match s with
  | EmptyString => true
  | String c s' => is_hex_digit c && all_hex s'
  end.

(** Exactly six hexadecimal digits. *)
Definition valid_hex6 (s : string) : bool :=
  (String.length s =? 6)%nat && all_hex s.

(** A [HexColor] of the data model: six hexadecimal digits, optionally
    prefixed with one [#]. *)
Definition is_hex_color (h : string) : bool :=
  match h with
  | String c s => if Ascii.eqb c "#" then valid_hex6 s else valid_hex6 h
  | EmptyString => false
  end.

(** [n] copies of [#]. *)
Fixpoint hashes (n : nat) : string :=
  match n with
  | O => EmptyString
  | S n' => String "#" (hashes n')
  end.

(** The value of a pair of hex digits. *)
Definition hex_byte (a b : ascii) : Z := 16 * Py.DigitValue a + Py.DigitValue b.

Definition pair (a b : ascii) : string := String a (String b EmptyString).

Definition result_Z_eqb (r : result Z) (v : Z) : bool :=
  match r with
  | Ok v' => v' =? v
  | Raise _ => false
  end.

Definition hex_pair_ok (a b : ascii) : bool :=
  implb (is_hex_digit a && is_hex_digit b)
    (result_Z_eqb (Py.int16 (pair a b)) (hex_byte a b)
     && String.eqb (Py.format_02X (hex_byte a b))
          (pair (Py.upper_char a) (Py.upper_char b))
     && (0 <=? hex_byte a b) && (hex_byte a b <=? 255)).

(** ** What [int(s, 16)] accepts among the slices

    A slice of the decoder has at most two characters.  White space is
    what [int] strips: the six ASCII blanks and, outside ASCII, U+0085
    and U+00A0. *)

Definition is_space (c : ascii) : bool :=
  Py.ISSPACE c || Py.unicode_isspace_high c.

Definition is_sign (c : ascii) : bool :=
  Ascii.eqb c "+" || Ascii.eqb c "-".

(** One hex digit; or two hex digits; or one hex digit with a white
    space before or after it, or with a sign before it. *)
Definition accepted_slice (t : string) : bool :=
  match t with
  | String a EmptyString => is_hex_digit a
  | String a (String b EmptyString) =>
      (is_hex_digit a && is_hex_digit b)
      || (is_space a && is_hex_digit b)
      || (is_hex_digit a && is_space b)
      || (is_sign a && is_hex_digit b)
  | _ => false
  end.

Definition short_ok1 (a : ascii) : bool :=
  Bool.eqb (is_ok (Py.int16 (String a EmptyString)))
           (accepted_slice (String a EmptyString)).

Definition short_ok2 (a b : ascii) : bool :=
  Bool.eqb (is_ok (Py.int16 (pair a b))) (accepted_slice (pair a b)).

(** ** Reading a document *)

Definition colors_of (doc : json) : option (list json) :=
  match Json.field "colors" doc with
  | Some xs => Json.elements xs
  | None => None
  end.

Definition component (k : string) (entry : json) : option json :=
  match Json.field "color" entry with
  | Some c =>
      match Json.field "components" c with
      | Some cs => Json.field k cs
      | None => None
      end
  | None => None
  end.

Definition color_space (entry : json) : option json :=
  match Json.field "color" entry with
  | Some c => Json.field "color-space" c
  | None => None
  end.

Definition keys (obj : json) : list string :=
  match obj with
  | JDict items => map fst items
  | _ => []
  end.

(** The appearance selector of a dark entry. *)
Definition dark_selector : json :=
  JList [JDict [("appearance", JStr "luminosity"); ("value", JStr "dark")]].

Definition info_block : json :=
  JDict [("author", JStr "xcode"); ("version", JInt 1)].

(** How a channel is written in a document. *)
Definition channel (v : Z) : json := JStr ("0x" +:+ Py.format_02X v).

(** ** The dark-mode document described from the light-only one

    The light-only document with one more entry in [colors]: the first
    entry again, tagged with the dark appearance selector. *)

Definition tag_dark (entry : json) : json :=
  match entry with
  | JDict items => JDict (("appearances", dark_selector) :: items)
  | _ => entry
  end.

Definition append_dark_copy (doc : json) : json :=
  match doc with
  | JDict items =>
      JDict (map (fun '(k, v) =>
                    if String.eqb k "colors" then
                      match v with
                      | JList (e :: es) => (k, JList (e :: es ++ [tag_dark e]))
                      | _ => (k, v)
                      end
                    else (k, v)) items)
  | _ => doc
  end.

(** ** The colour tables read as flat lists *)

Definition variants {V : Type} (table : list (string * list (string * V)))
    : list (string * V) :=
  flat_map snd table.

Definition variant_names {V : Type} (table : list (string * list (string * V)))
    : list string :=
  map fst (variants table).

(** The dark-mode table with the two lookups of the main loop done. *)
Definition dark_modes (modes : list (string * string))
    : result string * result string :=
  (getitem modes "light", getitem modes "dark").

(** ** The file operations of a run

    One iteration of a main loop, once the document is built: make the
    directory, write the text to [Contents.json] in it, print the line. *)

Record job : Type := Job {
  job_dir : string;
  job_text : string;
  job_line : string
}.

Definition job_path (j : job) : string := job_dir j +:+ "/Contents.json".

Definition run_job (j : job) (w : world) : result world :=
  f ← Os.makedirs (job_dir j) (fs w);
  f ← Os.write_text (job_path j) (job_text j) f;
  Ok (print (job_line j) (set_fs f w)).

(** What is written for a document, when there is one. *)
Definition text_of (doc : result json) : string :=
  match doc with
  | Ok d => Json.dumps 2 d
  | Raise _ => EmptyString
  end.

Definition colorset_dir (color_name : string) : string :=
  "Assets/Colors.xcassets" +:+ "/" +:+ color_name +:+ ".colorset".

Definition contents_path (color_name : string) : string :=
  "Assets/Colors.xcassets/" +:+ color_name +:+ ".colorset/Contents.json".

Definition light_document_of (entry : string * string) : result json :=
  ColorSets.create_color_set_json entry.1 entry.2.

Definition dark_document_of (entry : string * list (string * string))
    : result json :=
  light_hex ← getitem entry.2 "light";
  dark_hex ← getitem entry.2 "dark";
  DarkMode.create_color_set_json entry.1 light_hex dark_hex.

Definition light_job (entry : string * string) : job :=
  {| job_dir := colorset_dir entry.1;
     job_text := text_of (light_document_of entry);
     job_line := "Created " +:+ colorset_dir entry.1 +:+ "/Contents.json" |}.

Definition dark_job (entry : string * list (string * string)) : job :=
  {| job_dir := colorset_dir entry.1;
     job_text := text_of (dark_document_of entry);
     job_line := "Created " +:+ colorset_dir entry.1 +:+
                 "/Contents.json (light + dark mode)" |}.

Definition light_jobs : list job := map light_job (variants ColorSets.colors).

Definition dark_jobs : list job := map dark_job (variants DarkMode.colors).

(** What a job leaves in the file system: its directory and the
    ancestors of it, and its file with its text. *)
Definition job_done (f : gmap string node) (j : job) : Prop :=
  Forall (fun d => f !! d = Some Dir) (Os.ancestors (job_dir j) ++ [job_dir j])
  /\ f !! job_path j = Some (File (job_text j)).

(** The paths a job may create or change. *)
Definition touched (j : job) : list string :=
  (Os.ancestors (job_dir j) ++ [job_dir j]) ++ [job_path j].

(** The file is written into the directory made just before. *)
Definition job_wf (j : job) : bool :=
  match last (Os.ancestors (job_path j)) with
  | Some d => String.eqb d (job_dir j)
  | None => false
  end.

(** [needle in hay] *)
Fixpoint occurs_in (needle hay : string) : bool :=
  String.prefix needle hay
  || match hay with
     | EmptyString => false
     | String _ hay' => occurs_in needle hay'
     end.

(** No family name occurs in the output path of one of its variants. *)
Definition family_absent {V : Type} (table : list (string * list (string * V)))
    : bool :=
  forallb (fun family =>
             forallb (fun entry => negb (occurs_in family.1 (contents_path entry.1)))
                     family.2)
          table.

(** The directories above every colour-set directory of a table. *)
Definition ancestors_fixed {V : Type} (table : list (string * list (string * V)))
    : bool :=
  forallb (fun entry =>
             bool_decide (Os.ancestors (colorset_dir entry.1)
                          = ["Assets"; "Assets/Colors.xcassets"]))
          (variants table).

Definition empty_world : world := {| fs := ∅; stdout := [] |}.

(** ** Vocabulary of the further properties *)

(** *** The decoder on arbitrary input *)

(** What [int(t, 16)] returns for a slice lies between -15 and 255. *)
Definition short_range (t : string) : bool :=
  match Py.int16 t with
  | Ok v => (-15 <=? v) && (v <=? 255)
  | Raise _ => true
  end.

(** The upper-case form of a hex digit is a hex digit of the same value;
    [#] has no other case. *)
Definition upper_digit_ok (c : ascii) : bool :=
  implb (is_hex_digit c)
    (is_hex_digit (Py.upper_char c)
     && (Py.DigitValue (Py.upper_char c) =? Py.DigitValue c)).

(** The two digits written for a channel value, read back by
    [int(., 16)] alone and behind the [0x] of a document. *)
Definition byte_ok (n : nat) : bool :=
  match Py.format_02X (Z.of_nat n) with
  | String a (String b EmptyString) =>
      is_hex_digit a && is_hex_digit b
      && (hex_byte a b =? Z.of_nat n)
      && result_Z_eqb (Py.int16 ("0x" +:+ pair a b)) (Z.of_nat n)
  | _ => false
  end.

Definition is_channel (v : Z) : Prop := 0 <= v <= 255.

(** *** The dark-mode document built from two light-only ones

    The document for the light value, its [colors] followed by the
    entries of the document for the dark value, each tagged with the
    dark selector. *)
Definition with_dark (light_doc dark_doc : json) : json :=
  match light_doc, colors_of dark_doc with
  | JDict items, Some ds =>
      JDict (map (fun '(k, v) =>
                    if String.eqb k "colors" then
                      match v with
                      | JList ls => (k, JList (ls ++ map tag_dark ds))
                      | _ => (k, v)
                      end
                    else (k, v)) items)
  | _, _ => light_doc
  end.

(** *** What stands in the way of a run *)

Definition is_file (f : gmap string node) (p : string) : bool :=
  match f !! p with
  | Some (File _) => true
  | _ => false
  end.

Definition is_dir (f : gmap string node) (p : string) : bool :=
  match f !! p with
  | Some Dir => true
  | _ => false
  end.

(** The directories a job needs. *)
Definition job_dirs (j : job) : list string :=
  Os.ancestors (job_dir j) ++ [job_dir j].

(** Nothing is in the way of a job: none of its directories is a file
    and its file is not a directory. *)
Definition job_clear (f : gmap string node) (j : job) : bool :=
  forallb (fun d => negb (is_file f d)) (job_dirs j)
  && negb (is_dir f (job_path j)).

Definition mem_string (p : string) (ps : list string) : bool :=
  existsb (String.eqb p) ps.

(** No job writes its file where a job needs a directory. *)
Definition paths_apart (js : list job) : bool :=
  forallb (fun j => forallb (fun j' => negb (mem_string (job_path j) (job_dirs j'))) js) js.

(** The errors a run can end with. *)
Definition is_fs_error (e : exn) : bool :=
  match e with
  | FileExistsError | NotADirectoryError | IsADirectoryError => true
  | _ => false
  end.

(** The lines the two scripts print for a variant. *)
Definition light_line (color_name : string) : string :=
  "Created Assets/Colors.xcassets/" +:+ color_name +:+ ".colorset/Contents.json".

Definition dark_line (color_name : string) : string :=
  "Created Assets/Colors.xcassets/" +:+ color_name +:+
  ".colorset/Contents.json (light + dark mode)".

(** A world with files where a run leaves directories and the other way
    round is used to exercise the failures. *)
Definition world_of (items : list (string * node)) : world :=
  {| fs := list_to_map items; stdout := [] |}.

(** Nothing is in the way of a run over the variants [names]: neither
    [Assets] nor [Assets/Colors.xcassets] is a file, no colour-set
    directory is a file and no [Contents.json] is a directory. *)
Definition way_clear (names : list string) (f : gmap string node) : bool :=
  (negb (is_file f "Assets") && negb (is_file f "Assets/Colors.xcassets"))
  && forallb (fun name => negb (is_file f (colorset_dir name))
                          && negb (is_dir f (contents_path name))) names.

(** What a failed job found in its way. *)
Definition job_cause (f : gmap string node) (j : job) (e : exn) : Prop :=
  (e = NotADirectoryError /\ existsb (is_file f) (Os.ancestors (job_dir j)) = true)
  \/ (e = FileExistsError /\ is_file f (job_dir j) = true)
  \/ (e = IsADirectoryError /\ is_dir f (job_path j) = true).

(** *** The text of a [Contents.json]

    The layout of the output file as the interface description shows it:
    one item per line, two blanks per level, a comma after every item but
    the last, and no line break after the closing brace. *)

Definition quoted (s : string) : string :=
  String Json.dquote (s +:+ String Json.dquote EmptyString).

Fixpoint unlines (ls : list string) : string :=
  match ls with
  | [] => EmptyString
  | [l] => l
  | l :: ls' => l +:+ String Json.newline (unlines ls')
  end.

(** The [color] and [idiom] items of an entry of [colors]. *)
Definition color_lines (red green blue : string) : list string :=
  [ "      " +:+ quoted "color" +:+ ": {";
    "        " +:+ quoted "color-space" +:+ ": " +:+ quoted "srgb" +:+ ",";
    "        " +:+ quoted "components" +:+ ": {";
    "          " +:+ quoted "alpha" +:+ ": " +:+ quoted "1.000" +:+ ",";
    "          " +:+ quoted "blue" +:+ ": " +:+ quoted blue +:+ ",";
    "          " +:+ quoted "green" +:+ ": " +:+ quoted green +:+ ",";
    "          " +:+ quoted "red" +:+ ": " +:+ quoted red;
    "        }";
    "      },";
    "      " +:+ quoted "idiom" +:+ ": " +:+ quoted "universal" ].

Definition appearances_lines : list string :=
  [ "      " +:+ quoted "appearances" +:+ ": [";
    "        {";
    "          " +:+ quoted "appearance" +:+ ": " +:+ quoted "luminosity" +:+ ",";
    "          " +:+ quoted "value" +:+ ": " +:+ quoted "dark";
    "        }";
    "      ]," ].

Definition info_lines : list string :=
  [ "  " +:+ quoted "info" +:+ ": {";
    "    " +:+ quoted "author" +:+ ": " +:+ quoted "xcode" +:+ ",";
    "    " +:+ quoted "version" +:+ ": 1";
    "  }" ].

Definition light_text (red green blue : string) : string :=
  unlines
    ([ "{";
       "  " +:+ quoted "colors" +:+ ": [";
       "    {" ]
     ++ color_lines red green blue
     ++ [ "    }";
          "  ]," ]
     ++ info_lines
     ++ [ "}" ]).

Definition dark_text (red green blue dark_red dark_green dark_blue : string)
    : string :=
  unlines
    ([ "{";
       "  " +:+ quoted "colors" +:+ ": [";
       "    {" ]
     ++ color_lines red green blue
     ++ [ "    },";
          "    {" ]
     ++ appearances_lines
     ++ color_lines dark_red dark_green dark_blue
     ++ [ "    }";
          "  ]," ]
     ++ info_lines
     ++ [ "}" ]).

(** A hex digit in upper case is written in a JSON string as it is. *)
Definition plain_digit (c : ascii) : bool :=
  implb (is_hex_digit c)
    (String.eqb (Json.escape_char (Py.upper_char c))
                (String (Py.upper_char c) EmptyString)).

(** * Properties *)

Lemma all_chars_complete (c : ascii) : In c all_chars.
Proof.
  unfold all_chars. rewrite <- (ascii_nat_embedding c).
  apply in_map, in_seq. pose proof (nat_ascii_bounded c). lia.
Qed.

Lemma forall_char_true (P : ascii -> bool) :
  forall_char P = true -> forall c, P c = true.
Proof.
  intros H c. unfold forall_char in H. rewrite forallb_forall in H.
  apply H, all_chars_complete.
Qed.

Lemma forall_char2_true (P : ascii -> ascii -> bool) :
  forall_char (fun a => forall_char (P a)) = true -> forall a b, P a b = true.
Proof.
  intros H a b.
  apply (forall_char_true (P a)), (forall_char_true _ H).
Qed.

Lemma hex_pair_table : forall_char (fun a => forall_char (hex_pair_ok a)) = true.
Proof. vm_compute. reflexivity. Qed.

Lemma hex_pair_spec (a b : ascii) :
  is_hex_digit a = true -> is_hex_digit b = true ->
  Py.int16 (pair a b) = Ok (hex_byte a b)
  /\ Py.format_02X (hex_byte a b) = pair (Py.upper_char a) (Py.upper_char b)
  /\ 0 <= hex_byte a b <= 255.
Proof.
  intros Ha Hb.
  pose proof (forall_char2_true _ hex_pair_table a b) as H.
  unfold hex_pair_ok in H. rewrite Ha, Hb in H. simpl in H.
  repeat (apply andb_prop in H; destruct H as [H ?]).
  unfold result_Z_eqb in H. destruct (Py.int16 (pair a b)) as [v|]; [|discriminate].
  apply Z.eqb_eq in H. subst v.
  repeat split; [by apply String.eqb_eq | lia | lia].
Qed.

Lemma hex_digit_not_hash (c : ascii) :
  is_hex_digit c = true -> Py.mem c "#" = false.
Proof.
  intros H.
  pose proof (forall_char_true
    (fun c => implb (is_hex_digit c) (negb (Py.mem c "#"))) eq_refl c) as T.
  simpl in T. rewrite H in T. simpl in T. by apply negb_true_iff in T.
Qed.

(** A valid string is six hex digits, spelled out. *)
Lemma valid_hex6_inv (s : string) :
  valid_hex6 s = true ->
  exists c1 c2 c3 c4 c5 c6,
    s = String c1 (String c2 (String c3 (String c4 (String c5 (String c6 "")))))
    /\ is_hex_digit c1 = true /\ is_hex_digit c2 = true
    /\ is_hex_digit c3 = true /\ is_hex_digit c4 = true
    /\ is_hex_digit c5 = true /\ is_hex_digit c6 = true.
Proof.
  unfold valid_hex6. intros H. apply andb_prop in H as [Hl Hh].
  apply Nat.eqb_eq in Hl.
  destruct s as [|c1 [|c2 [|c3 [|c4 [|c5 [|c6 [|c7 s]]]]]]]; try discriminate.
  simpl in Hh. repeat (apply andb_prop in Hh as [? Hh]).
  exists c1, c2, c3, c4, c5, c6. by repeat split.
Qed.

Lemma lstrip_hashes (n : nat) (s : string) :
  Py.lstrip "#" (hashes n +:+ s) = Py.lstrip "#" s.
Proof. induction n as [|n IH]; [reflexivity | exact IH]. Qed.

Lemma hex_to_rgb_hashes (n : nat) (s : string) :
  hex_to_rgb (hashes n +:+ s) = hex_to_rgb s.
Proof. unfold hex_to_rgb. by rewrite lstrip_hashes. Qed.

Lemma hex_to_rgb_digits (c1 c2 c3 c4 c5 c6 : ascii) :
  is_hex_digit c1 = true -> is_hex_digit c2 = true ->
  is_hex_digit c3 = true -> is_hex_digit c4 = true ->
  is_hex_digit c5 = true -> is_hex_digit c6 = true ->
  hex_to_rgb (String c1 (String c2 (String c3 (String c4 (String c5 (String c6 ""))))))
  = Ok (hex_byte c1 c2, hex_byte c3 c4, hex_byte c5 c6).
Proof.
  intros H1 H2 H3 H4 H5 H6. unfold hex_to_rgb.
  cbn [Py.lstrip]. rewrite (hex_digit_not_hash c1 H1).
  change (Py.slice 0 2 _) with (pair c1 c2).
  change (Py.slice 2 4 _) with (pair c3 c4).
  change (Py.slice 4 6 _) with (pair c5 c6).
  destruct (hex_pair_spec c1 c2 H1 H2) as [-> _].
  destruct (hex_pair_spec c3 c4 H3 H4) as [-> _].
  destruct (hex_pair_spec c5 c6 H5 H6) as [-> _].
  reflexivity.
Qed.

Lemma hex_to_rgb_valid (s : string) :
  valid_hex6 s = true ->
  exists c1 c2 c3 c4 c5 c6,
    s = String c1 (String c2 (String c3 (String c4 (String c5 (String c6 "")))))
    /\ hex_to_rgb s = Ok (hex_byte c1 c2, hex_byte c3 c4, hex_byte c5 c6)
    /\ Py.format_02X (hex_byte c1 c2) = Py.upper (pair c1 c2)
    /\ Py.format_02X (hex_byte c3 c4) = Py.upper (pair c3 c4)
    /\ Py.format_02X (hex_byte c5 c6) = Py.upper (pair c5 c6).
Proof.
  intros H.
  destruct (valid_hex6_inv s H) as (c1&c2&c3&c4&c5&c6&->&H1&H2&H3&H4&H5&H6).
  exists c1, c2, c3, c4, c5, c6. split; [reflexivity|].
  split; [by apply hex_to_rgb_digits|].
  destruct (hex_pair_spec c1 c2 H1 H2) as (_&->&_).
  destruct (hex_pair_spec c3 c4 H3 H4) as (_&->&_).
  destruct (hex_pair_spec c5 c6 H5 H6) as (_&->&_).
  by repeat split.
Qed.

Lemma lstrip_valid (s : string) :
  valid_hex6 s = true -> Py.lstrip "#" s = s.
Proof.
  intros H. destruct (valid_hex6_inv s H) as (c1&?&?&?&?&?&->&H1&_).
  cbn [Py.lstrip]. by rewrite (hex_digit_not_hash c1 H1).
Qed.

(** A hex colour is its six digits after at most one [#]. *)
Lemma hex_color_digits (h : string) :
  is_hex_color h = true ->
  valid_hex6 (Py.lstrip "#" h) = true
  /\ hex_to_rgb h = hex_to_rgb (Py.lstrip "#" h).
Proof.
  destruct h as [|c s]; [discriminate|]. unfold is_hex_color.
  destruct (Ascii.eqb_spec c "#") as [->|Hc]; intros H.
  - change (String "#" s) with (hashes 1 +:+ s).
    rewrite hex_to_rgb_hashes, lstrip_hashes, (lstrip_valid s H). by split.
  - rewrite (lstrip_valid _ H). by split.
Qed.

(** The document builders on decoded channels. *)
Lemma light_document (color_name hex_value : string) (r g b : Z) :
  hex_to_rgb hex_value = Ok (r, g, b) ->
  exists e,
    ColorSets.create_color_set_json color_name hex_value
      = Ok (JDict [("colors", JList [e]); ("info", info_block)])
    /\ keys e = ["color"; "idiom"]
    /\ Json.field "appearances" e = None
    /\ Json.field "idiom" e = Some (JStr "universal")
    /\ color_space e = Some (JStr "srgb")
    /\ component "alpha" e = Some (JStr "1.000")
    /\ component "red" e = Some (channel r)
    /\ component "green" e = Some (channel g)
    /\ component "blue" e = Some (channel b).
Proof.
  intros H. unfold ColorSets.create_color_set_json. rewrite H.
  eexists. split; [reflexivity|]. by repeat split.
Qed.

Lemma dark_document (color_name light_hex dark_hex : string)
    (lr lg lb dr dg db : Z) :
  hex_to_rgb light_hex = Ok (lr, lg, lb) ->
  hex_to_rgb dark_hex = Ok (dr, dg, db) ->
  exists e1 e2,
    DarkMode.create_color_set_json color_name light_hex dark_hex
      = Ok (JDict [("colors", JList [e1; e2]); ("info", info_block)])
    /\ (keys e1 = ["color"; "idiom"]
        /\ Json.field "appearances" e1 = None
        /\ Json.field "idiom" e1 = Some (JStr "universal")
        /\ color_space e1 = Some (JStr "srgb")
        /\ component "alpha" e1 = Some (JStr "1.000")
        /\ component "red" e1 = Some (channel lr)
        /\ component "green" e1 = Some (channel lg)
        /\ component "blue" e1 = Some (channel lb))
    /\ (keys e2 = ["appearances"; "color"; "idiom"]
        /\ Json.field "appearances" e2 = Some dark_selector
        /\ Json.field "idiom" e2 = Some (JStr "universal")
        /\ color_space e2 = Some (JStr "srgb")
        /\ component "alpha" e2 = Some (JStr "1.000")
        /\ component "red" e2 = Some (channel dr)
        /\ component "green" e2 = Some (channel dg)
        /\ component "blue" e2 = Some (channel db)).
Proof.
  intros Hl Hd. unfold DarkMode.create_color_set_json. rewrite Hl, Hd.
  do 2 eexists. split; [reflexivity|]. by repeat split.
Qed.

(** ** The decoder on arbitrary input *)

Lemma short_table1 : forall_char short_ok1 = true.
Proof. vm_compute. reflexivity. Qed.

Lemma short_table2 : forall_char (fun a => forall_char (short_ok2 a)) = true.
Proof. vm_compute. reflexivity. Qed.

(** On a string of at most two characters [int(s, 16)] returns exactly
    when the string has one of the accepted forms. *)
Lemma int16_short (t : string) :
  (String.length t <= 2)%nat -> is_ok (Py.int16 t) = accepted_slice t.
Proof.
  destruct t as [|a [|b [|c t]]]; intros Hlen.
  - reflexivity.
  - apply eqb_prop. exact (forall_char_true _ short_table1 a).
  - apply eqb_prop. exact (forall_char2_true _ short_table2 a b).
  - simpl in Hlen. lia.
Qed.

Lemma int16_raises (t : string) (e : exn) :
  Py.int16 t = Raise e -> e = ValueError.
Proof.
  unfold Py.int16, Py.long_from_string16.
  repeat case_match; congruence.
Qed.

Lemma take_length (n : nat) (s : string) : (String.length (Py.take n s) <= n)%nat.
Proof.
  revert s. induction n as [|n IH]; intros [|c s]; simpl; try lia.
  specialize (IH s). lia.
Qed.

Lemma slice_length (i j : nat) (s : string) :
  (String.length (Py.slice i j s) <= j - i)%nat.
Proof. apply take_length. Qed.

Lemma drop_all (n : nat) (s : string) :
  (String.length s <= n)%nat -> Py.drop n s = EmptyString.
Proof.
  revert s. induction n as [|n IH]; intros [|c s]; simpl; intros H;
    try reflexivity; try lia.
  apply IH. lia.
Qed.

Lemma slice_beyond (i j : nat) (s : string) :
  (String.length s <= i)%nat -> Py.slice i j s = EmptyString.
Proof.
  intros H. unfold Py.slice. rewrite (drop_all i s H).
  by destruct (j - i)%nat.
Qed.

Lemma hex_to_rgb_ok (s : string) :
  is_ok (hex_to_rgb s)
  = accepted_slice (Py.slice 0 2 (Py.lstrip "#" s))
    && accepted_slice (Py.slice 2 4 (Py.lstrip "#" s))
    && accepted_slice (Py.slice 4 6 (Py.lstrip "#" s)).
Proof.
  unfold hex_to_rgb.
  rewrite <- !int16_short by (etrans; [apply slice_length | simpl; lia]).
  destruct (Py.int16 (Py.slice 0 2 _)); [|reflexivity].
  destruct (Py.int16 (Py.slice 2 4 _)); [|reflexivity].
  destruct (Py.int16 (Py.slice 4 6 _)); reflexivity.
Qed.

Lemma hex_to_rgb_error (s : string) (e : exn) :
  hex_to_rgb s = Raise e -> e = ValueError.
Proof.
  unfold hex_to_rgb.
  destruct (Py.int16 (Py.slice 0 2 _)) eqn:E1; [|intros [= <-]; eauto using int16_raises].
  destruct (Py.int16 (Py.slice 2 4 _)) eqn:E2; [|intros [= <-]; eauto using int16_raises].
  destruct (Py.int16 (Py.slice 4 6 _)) eqn:E3; [|intros [= <-]; eauto using int16_raises].
  discriminate.
Qed.

(** ** Loops *)

Lemma bind_ok {A B : Type} (a : A) (k : A -> result B) : (Ok a ≫= k) = k a.
Proof. reflexivity. Qed.

Lemma bind_raise {A B : Type} (e : exn) (k : A -> result B) :
  (Raise e ≫= k) = Raise e.
Proof. reflexivity. Qed.

Lemma bind_inv {A B : Type} (m : result A) (k : A -> result B) (b : B) :
  (m ≫= k) = Ok b -> exists a, m = Ok a /\ k a = Ok b.
Proof. destruct m as [a|e]; [eauto | discriminate]. Qed.

Section loops.
Context {A S : Type}.
Implicit Types (xs ys : list A) (body : A -> S -> result S) (s : S).

Lemma for_each_app xs ys body s :
  for_each (xs ++ ys) body s = for_each xs body s ≫= for_each ys body.
Proof.
  revert s. induction xs as [|x xs IH]; intros s; [reflexivity|].
  simpl. destruct (body x s) as [s'|e]; [apply IH | reflexivity].
Qed.

Lemma for_each_ext xs body body' s :
  Forall (fun x => forall s, body x s = body' x s) xs ->
  for_each xs body s = for_each xs body' s.
Proof.
  intros H. revert s. induction H as [|x xs Hx _ IH]; intros s; [reflexivity|].
  simpl. rewrite Hx. destruct (body' x s) as [s'|e]; [apply IH | reflexivity].
Qed.
End loops.

Lemma for_each_map {A B S : Type} (h : A -> B) (xs : list A)
    (body : B -> S -> result S) (s : S) :
  for_each (map h xs) body s = for_each xs (fun x => body (h x)) s.
Proof.
  revert s. induction xs as [|x xs IH]; intros s; [reflexivity|].
  simpl. destruct (body (h x) s) as [s'|e]; [apply IH | reflexivity].
Qed.

(** The nested loops of the scripts visit the variants of the table in
    order. *)
Lemma for_each_nested {V S : Type} (table : list (string * list (string * V)))
    (body : string * V -> S -> result S) (s : S) :
  for_each table (fun '(_, color_variants) s => for_each color_variants body s) s
  = for_each (variants table) body s.
Proof.
  revert s. induction table as [|[family vs] table IH]; intros s; [reflexivity|].
  unfold variants. simpl. rewrite for_each_app.
  destruct (for_each vs body s) as [s'|e]; [apply IH | reflexivity].
Qed.

(** ** The file system *)

Section file_system.
Implicit Types (f : gmap string node) (p q : string) (ps : list string).

Lemma mkdir_inv leaf p f f' :
  Os.mkdir_exist_ok leaf p f = Ok f' ->
  f' !! p = Some Dir
  /\ (forall q v, f !! q = Some v -> f' !! q = Some v)
  /\ (forall q, q ≠ p -> f' !! q = f !! q).
Proof.
  unfold Os.mkdir_exist_ok.
  destruct (f !! p) as [[|c]|] eqn:E; intros [= <-].
  - by repeat split.
  - split; [apply lookup_insert_eq|]. split.
    + intros q v Hq. rewrite lookup_insert_ne; [done | congruence].
    + intros q Hq. by rewrite lookup_insert_ne.
Qed.

Lemma mkdir_present leaf p f :
  f !! p = Some Dir -> Os.mkdir_exist_ok leaf p f = Ok f.
Proof. intros H. unfold Os.mkdir_exist_ok. by rewrite H. Qed.

Lemma mkdirs_inv ps f f' :
  for_each ps (Os.mkdir_exist_ok false) f = Ok f' ->
  Forall (fun p => f' !! p = Some Dir) ps
  /\ (forall q v, f !! q = Some v -> f' !! q = Some v)
  /\ (forall q, q ∉ ps -> f' !! q = f !! q).
Proof.
  revert f. induction ps as [|p ps IH]; intros f; simpl.
  - intros [= <-]. by repeat split.
  - intros H. apply bind_inv in H as (f1 & H1 & H2).
    apply mkdir_inv in H1 as (Hp & Hkeep & Hframe).
    apply IH in H2 as (Hall & Hkeep' & Hframe').
    split; [constructor; eauto|]. split; [eauto|].
    intros q Hq. apply not_elem_of_cons in Hq as [Hqp Hq].
    rewrite Hframe' by done. by apply Hframe.
Qed.

Lemma mkdirs_present ps f :
  Forall (fun p => f !! p = Some Dir) ps ->
  for_each ps (Os.mkdir_exist_ok false) f = Ok f.
Proof.
  induction 1 as [|p ps Hp _ IH]; [reflexivity|].
  simpl. by rewrite (mkdir_present _ _ _ Hp), bind_ok.
Qed.

Lemma makedirs_inv p f f' :
  Os.makedirs p f = Ok f' ->
  Forall (fun d => f' !! d = Some Dir) (Os.ancestors p ++ [p])%list
  /\ (forall q v, f !! q = Some v -> f' !! q = Some v)
  /\ (forall q, q ∉ (Os.ancestors p ++ [p])%list -> f' !! q = f !! q).
Proof.
  unfold Os.makedirs. intros H. apply bind_inv in H as (f1 & H1 & H2).
  apply mkdirs_inv in H1 as (Hall & Hkeep & Hframe).
  apply mkdir_inv in H2 as (Hp & Hkeep' & Hframe').
  split; [|split].
  - apply Forall_app. split; [|by repeat constructor].
    eapply Forall_impl; [exact Hall|]. simpl. eauto.
  - eauto.
  - intros q Hq. apply not_elem_of_app in Hq as [Hq1 Hq2].
    apply not_elem_of_cons in Hq2 as [Hq2 _].
    rewrite Hframe' by done. by apply Hframe.
Qed.

Lemma makedirs_present p f :
  Forall (fun d => f !! d = Some Dir) (Os.ancestors p ++ [p])%list ->
  Os.makedirs p f = Ok f.
Proof.
  intros H. apply Forall_app in H as [Ha Hp].
  apply Forall_cons in Hp as [Hp _]. unfold Os.makedirs.
  rewrite (mkdirs_present _ _ Ha), bind_ok. by apply mkdir_present.
Qed.

Lemma write_text_inv p text f f' :
  Os.write_text p text f = Ok f' ->
  f' = <[p := File text]> f /\ f !! p ≠ Some Dir.
Proof.
  unfold Os.write_text. intros H.
  repeat case_match; try discriminate; injection H as <-;
    (split; [reflexivity | congruence]).
Qed.

Lemma write_text_present p text d f :
  last (Os.ancestors p) = Some d ->
  f !! d = Some Dir ->
  f !! p = Some (File text) ->
  Os.write_text p text f = Ok f.
Proof.
  intros Hd Hdir Hp. unfold Os.write_text. rewrite Hd, Hdir, Hp.
  by rewrite insert_id.
Qed.
End file_system.

(** ** Jobs *)

Section jobs.
Implicit Types (j : job) (js : list job) (w : world) (q : string).

Lemma run_job_inv j w w' :
  run_job j w = Ok w' ->
  job_done (fs w') j
  /\ (forall q, fs w !! q = Some Dir -> fs w' !! q = Some Dir)
  /\ (forall q c, q ≠ job_path j ->
        fs w !! q = Some (File c) -> fs w' !! q = Some (File c))
  /\ (forall q, q ∉ touched j -> fs w' !! q = fs w !! q)
  /\ stdout w' = (stdout w ++ [job_line j])%list.
Proof.
  unfold run_job. intros H.
  apply bind_inv in H as (f1 & H1 & H).
  apply bind_inv in H as (f2 & H2 & H). injection H as <-.
  apply makedirs_inv in H1 as (Hdirs & Hkeep & Hframe).
  apply write_text_inv in H2 as (-> & Hnot).
  cbn [fs stdout print set_fs].
  assert (forall q, f1 !! q = Some Dir ->
            <[job_path j := File (job_text j)]> f1 !! q = Some Dir) as Hdir.
  { intros q Hq. rewrite lookup_insert_ne; [done | congruence]. }
  split; [|split; [|split; [|split]]].
  - split; [|apply lookup_insert_eq].
    eapply Forall_impl; [exact Hdirs|]. exact Hdir.
  - eauto.
  - intros q c Hq Hc. rewrite lookup_insert_ne by done. eauto.
  - intros q Hq. unfold touched in Hq.
    apply not_elem_of_app in Hq as [Hq1 Hq2].
    apply not_elem_of_cons in Hq2 as [Hq2 _].
    rewrite lookup_insert_ne by done. by apply Hframe.
  - reflexivity.
Qed.

Lemma run_job_present j w :
  job_wf j = true -> job_done (fs w) j ->
  run_job j w = Ok (print (job_line j) w).
Proof.
  unfold job_wf. intros Hwf [Hdirs Hfile].
  destruct (last (Os.ancestors (job_path j))) as [d|] eqn:Hd; [|discriminate].
  apply String.eqb_eq in Hwf. subst d.
  unfold run_job. rewrite (makedirs_present _ _ Hdirs), bind_ok.
  erewrite write_text_present; [| exact Hd | | exact Hfile].
  - rewrite bind_ok. by destruct w.
  - apply Forall_app in Hdirs as [_ Hdir].
    by apply Forall_cons in Hdir as [Hdir _].
Qed.

Lemma job_done_stable j (f f' : gmap string node) :
  (forall q, f !! q = Some Dir -> f' !! q = Some Dir) ->
  (f !! job_path j = Some (File (job_text j)) ->
   f' !! job_path j = Some (File (job_text j))) ->
  job_done f j -> job_done f' j.
Proof.
  intros Hdir Hfile [Hdirs Hf]. split; [|eauto].
  eapply Forall_impl; [exact Hdirs|]. exact Hdir.
Qed.

Lemma run_jobs_inv js w w' :
  NoDup (map job_path js) ->
  for_each js run_job w = Ok w' ->
  Forall (job_done (fs w')) js
  /\ (forall q, fs w !! q = Some Dir -> fs w' !! q = Some Dir)
  /\ (forall q c, q ∉ map job_path js ->
        fs w !! q = Some (File c) -> fs w' !! q = Some (File c))
  /\ (forall q, q ∉ flat_map touched js -> fs w' !! q = fs w !! q)
  /\ stdout w' = (stdout w ++ map job_line js)%list.
Proof.
  revert w. induction js as [|j js IH]; intros w Hnd; simpl.
  - intros [= <-]. rewrite app_nil_r. by repeat split.
  - intros H. apply bind_inv in H as (w1 & H1 & H2).
    apply NoDup_cons in Hnd as [Hj Hnd].
    apply run_job_inv in H1 as (Hdone & Hdir & Hfile & Hframe & Hout).
    apply (IH _ Hnd) in H2 as (Hall & Hdir' & Hfile' & Hframe' & Hout').
    split; [|split; [|split; [|split]]].
    + constructor; [|exact Hall].
      eapply job_done_stable; [exact Hdir' | | exact Hdone].
      by apply Hfile'.
    + eauto.
    + intros q c Hq Hc. apply not_elem_of_cons in Hq as [Hq1 Hq2]. eauto.
    + intros q Hq. apply not_elem_of_app in Hq as [Hq1 Hq2].
      rewrite Hframe' by done. by apply Hframe.
    + rewrite Hout', Hout, <- app_assoc. reflexivity.
Qed.

Lemma run_jobs_present js w :
  forallb job_wf js = true ->
  Forall (job_done (fs w)) js ->
  exists w', for_each js run_job w = Ok w'
    /\ fs w' = fs w
    /\ stdout w' = (stdout w ++ map job_line js)%list.
Proof.
  revert w. induction js as [|j js IH]; intros w Hwf Hall; simpl.
  - exists w. by rewrite app_nil_r.
  - simpl in Hwf. apply andb_prop in Hwf as [Hj Hwf].
    apply Forall_cons in Hall as [Hdone Hall].
    rewrite (run_job_present _ _ Hj Hdone), bind_ok.
    destruct (IH (print (job_line j) w) Hwf Hall) as (w' & Hrun & Hfs & Hout).
    exists w'. split; [exact Hrun|]. split; [exact Hfs|].
    rewrite Hout. simpl. by rewrite <- app_assoc.
Qed.
End jobs.

(** ** The main loops as lists of jobs *)

Lemma append_assoc (a b c : string) : (a +:+ b) +:+ c = a +:+ (b +:+ c).
Proof.
  induction a as [|x a IH]; [reflexivity|].
  change (String x ((a +:+ b) +:+ c) = String x (a +:+ (b +:+ c))).
  by rewrite IH.
Qed.

Lemma job_path_contents (color_name : string) :
  colorset_dir color_name +:+ "/Contents.json" = contents_path color_name.
Proof.
  unfold colorset_dir, contents_path.
  rewrite !append_assoc. reflexivity.
Qed.

Lemma light_documents_ok :
  forallb (fun e => is_ok (light_document_of e)) (variants ColorSets.colors) = true.
Proof. vm_compute. reflexivity. Qed.

Lemma dark_documents_ok :
  forallb (fun e => is_ok (dark_document_of e)) (variants DarkMode.colors) = true.
Proof. vm_compute. reflexivity. Qed.

Lemma text_of_ok (m : result json) :
  is_ok m = true -> exists doc, m = Ok doc /\ text_of m = Json.dumps 2 doc.
Proof. destruct m as [doc|e]; [eauto | discriminate]. Qed.

Lemma light_main_jobs (w : world) :
  ColorSets.main w
  = for_each light_jobs run_job w
      ≫= fun w' => Ok (print "All color sets created successfully!" w').
Proof.
  unfold ColorSets.main, light_jobs.
  rewrite for_each_nested, for_each_map.
  rewrite (for_each_ext (variants ColorSets.colors) _
             (fun e => run_job (light_job e))); [reflexivity|].
  apply Forall_forall. intros [color_name hex_value] Hin s.
  apply list_elem_of_In in Hin.
  pose proof light_documents_ok as Hok. rewrite forallb_forall in Hok.
  destruct (text_of_ok _ (Hok _ Hin)) as (doc & Hdoc & Htext).
  unfold run_job, light_job, job_path. cbn [job_dir job_text job_line fst snd].
  rewrite Htext. unfold light_document_of in Hdoc. cbn [fst snd] in Hdoc.
  change (ColorSets.base_path +:+ "/" +:+ color_name +:+ ".colorset")
    with (colorset_dir color_name).
  destruct (Os.makedirs (colorset_dir color_name) (fs s)) as [f1|e];
    [|reflexivity].
  rewrite !bind_ok, Hdoc, bind_ok. reflexivity.
Qed.

Lemma dark_main_jobs (w : world) :
  DarkMode.main w
  = for_each dark_jobs run_job w
      ≫= fun w' =>
           Ok (print "All color sets with dark mode support created successfully!" w').
Proof.
  unfold DarkMode.main, dark_jobs.
  rewrite for_each_nested, for_each_map.
  rewrite (for_each_ext (variants DarkMode.colors) _
             (fun e => run_job (dark_job e))); [reflexivity|].
  apply Forall_forall. intros [color_name color_modes] Hin s.
  apply list_elem_of_In in Hin.
  pose proof dark_documents_ok as Hok. rewrite forallb_forall in Hok.
  destruct (text_of_ok _ (Hok _ Hin)) as (doc & Hdoc & Htext).
  unfold run_job, dark_job, job_path. cbn [job_dir job_text job_line fst snd].
  rewrite Htext. unfold dark_document_of in Hdoc. cbn [fst snd] in Hdoc.
  change (DarkMode.base_path +:+ "/" +:+ color_name +:+ ".colorset")
    with (colorset_dir color_name).
  destruct (Os.makedirs (colorset_dir color_name) (fs s)) as [f1|e];
    [|reflexivity].
  rewrite !bind_ok.
  destruct (getitem color_modes "light") as [light_hex|e]; [|discriminate].
  destruct (getitem color_modes "dark") as [dark_hex|e]; [|discriminate].
  rewrite !bind_ok in Hdoc. rewrite !bind_ok, Hdoc, bind_ok. reflexivity.
Qed.

Lemma light_jobs_wf : forallb job_wf light_jobs = true.
Proof. vm_compute. reflexivity. Qed.

Lemma dark_jobs_wf : forallb job_wf dark_jobs = true.
Proof. vm_compute. reflexivity. Qed.

Lemma light_jobs_paths : NoDup (map job_path light_jobs).
Proof. apply (bool_decide_unpack _). vm_compute. reflexivity. Qed.

Lemma dark_jobs_paths : NoDup (map job_path dark_jobs).
Proof. apply (bool_decide_unpack _). vm_compute. reflexivity. Qed.

(** A run that returns has done every job; a second run from there
    returns too and leaves the file system as it is; and nothing outside
    the touched paths has changed. *)
Lemma main_inv (js : list job) (line : string) (w w1 : world) :
  forallb job_wf js = true ->
  NoDup (map job_path js) ->
  (for_each js run_job w ≫= fun w' => Ok (print line w')) = Ok w1 ->
  Forall (job_done (fs w1)) js
  /\ (exists w2,
        (for_each js run_job w1 ≫= fun w' => Ok (print line w')) = Ok w2
        /\ fs w2 = fs w1)
  /\ (forall q, q ∉ flat_map touched js -> fs w1 !! q = fs w !! q)
  /\ stdout w1 = (stdout w ++ map job_line js ++ [line])%list.
Proof.
  intros Hwf Hnd H. apply bind_inv in H as (w' & Hrun & H). injection H as <-.
  apply (run_jobs_inv _ _ _ Hnd) in Hrun as (Hall & _ & _ & Hframe & Hout).
  cbn [fs stdout print].
  split; [exact Hall|]. split; [|split; [exact Hframe|]].
  - destruct (run_jobs_present js (print line w') Hwf Hall) as (w2 & Hrun2 & Hfs & _).
    exists (print line w2). rewrite Hrun2, bind_ok. by split.
  - by rewrite Hout, <- app_assoc.
Qed.

Lemma elem_of_variants {V : Type} (table : list (string * list (string * V)))
    (family : string) (vs : list (string * V)) (entry : string * V) :
  (family, vs) ∈ table -> entry ∈ vs -> entry ∈ variants table.
Proof.
  intros Hf He. apply list_elem_of_In. apply list_elem_of_In in Hf, He.
  unfold variants. apply in_flat_map. exists (family, vs). by split.
Qed.

(** Where a run leaves its output, for any table whose jobs are well
    formed. *)
Section outputs.
Context {V : Type}.
Variable table : list (string * list (string * V)).
Variable mkjob : string * V -> job.
Variable line : string.
Hypothesis Hdir : forall entry, job_dir (mkjob entry) = colorset_dir entry.1.
Hypothesis Hwf : forallb job_wf (map mkjob (variants table)) = true.
Hypothesis Hnd : NoDup (map job_path (map mkjob (variants table))).
Hypothesis Hanc : ancestors_fixed table = true.
Hypothesis Hfam : family_absent table = true.

Lemma outputs_located (w w1 : world) :
  (for_each (map mkjob (variants table)) run_job w
     ≫= fun w' => Ok (print line w')) = Ok w1 ->
  (forall family vs color_name v,
     (family, vs) ∈ table -> (color_name, v) ∈ vs ->
     fs w1 !! contents_path color_name
       = Some (File (job_text (mkjob (color_name, v))))
     /\ fs w1 !! colorset_dir color_name = Some Dir
     /\ occurs_in family (contents_path color_name) = false)
  /\ (forall q, fs w1 !! q ≠ fs w !! q ->
        q = "Assets" \/ q = "Assets/Colors.xcassets"
        \/ exists color_name, color_name ∈ variant_names table
             /\ (q = colorset_dir color_name \/ q = contents_path color_name)).
Proof.
  intros H. apply (main_inv _ _ _ _ Hwf Hnd) in H as (Hall & _ & Hframe & _).
  split.
  - intros family vs color_name v Hf He.
    pose proof (elem_of_variants _ _ _ _ Hf He) as Hin.
    rewrite Forall_forall in Hall.
    destruct (Hall (mkjob (color_name, v))) as [Hdirs Hfile].
    { apply list_elem_of_In, in_map. by apply list_elem_of_In. }
    unfold job_path in Hfile. rewrite Hdir in Hdirs, Hfile.
    cbn [fst] in Hdirs, Hfile. rewrite job_path_contents in Hfile.
    split; [exact Hfile|]. split.
    + apply Forall_app in Hdirs as [_ Hd]. by apply Forall_cons in Hd as [Hd _].
    + unfold family_absent in Hfam. rewrite forallb_forall in Hfam.
      apply list_elem_of_In in Hf, He.
      specialize (Hfam _ Hf). cbn [fst snd] in Hfam.
      rewrite forallb_forall in Hfam. specialize (Hfam _ He).
      by apply negb_true_iff in Hfam.
  - intros q Hq.
    destruct (decide (q ∈ flat_map touched (map mkjob (variants table))))
      as [Hin|Hout]; [|by apply Hframe in Hout].
    apply list_elem_of_In, in_flat_map in Hin as (j & Hj & Hqj).
    apply in_map_iff in Hj as ([color_name v] & <- & He).
    unfold ancestors_fixed in Hanc. rewrite forallb_forall in Hanc.
    specialize (Hanc _ He). apply bool_decide_eq_true_1 in Hanc.
    unfold touched, job_path in Hqj. rewrite Hdir in Hqj. cbn [fst] in Hqj, Hanc.
    rewrite Hanc, job_path_contents in Hqj.
    assert (color_name ∈ variant_names table) as Hname.
    { apply list_elem_of_In. unfold variant_names.
      apply in_map_iff. by exists (color_name, v). }
    simpl in Hqj. destruct Hqj as [<-|[<-|[<-|[<-|[]]]]]; eauto 6.
Qed.
End outputs.

Lemma light_table_facts :
  ancestors_fixed ColorSets.colors = true /\ family_absent ColorSets.colors = true.
Proof. split; vm_compute; reflexivity. Qed.

Lemma dark_table_facts :
  ancestors_fixed DarkMode.colors = true /\ family_absent DarkMode.colors = true.
Proof. split; vm_compute; reflexivity. Qed.

(** ** The decoder on arbitrary input *)

Lemma short_range_table1 :
  forall_char (fun a => short_range (String a EmptyString)) = true.
Proof. vm_compute. reflexivity. Qed.

Lemma short_range_table2 :
  forall_char (fun a => forall_char (fun b => short_range (pair a b))) = true.
Proof. vm_compute. reflexivity. Qed.

Lemma int16_short_range (t : string) (v : Z) :
  (String.length t <= 2)%nat -> Py.int16 t = Ok v -> -15 <= v <= 255.
Proof.
  intros Hlen Hv.
  assert (short_range t = true) as H.
  { destruct t as [|a [|b [|c t]]]; [reflexivity| | |simpl in Hlen; lia].
    - exact (forall_char_true _ short_range_table1 a).
    - exact (forall_char2_true (fun a b => short_range (pair a b))
               short_range_table2 a b). }
  unfold short_range in H. rewrite Hv in H. lia.
Qed.

Lemma hex_to_rgb_inv (s : string) (r g b : Z) :
  hex_to_rgb s = Ok (r, g, b) ->
  Py.int16 (Py.slice 0 2 (Py.lstrip "#" s)) = Ok r
  /\ Py.int16 (Py.slice 2 4 (Py.lstrip "#" s)) = Ok g
  /\ Py.int16 (Py.slice 4 6 (Py.lstrip "#" s)) = Ok b.
Proof.
  unfold hex_to_rgb. set (rest := Py.lstrip "#" s).
  destruct (Py.int16 (Py.slice 0 2 rest)) as [r'|]; [|discriminate].
  destruct (Py.int16 (Py.slice 2 4 rest)) as [g'|]; [|discriminate].
  destruct (Py.int16 (Py.slice 4 6 rest)) as [b'|]; [|discriminate].
  intros [= -> -> ->]. done.
Qed.

Lemma upper_digit_table : forall_char upper_digit_ok = true.
Proof. vm_compute. reflexivity. Qed.

Lemma upper_digit (c : ascii) :
  is_hex_digit c = true ->
  is_hex_digit (Py.upper_char c) = true
  /\ Py.DigitValue (Py.upper_char c) = Py.DigitValue c.
Proof.
  intros Hc. pose proof (forall_char_true _ upper_digit_table c) as H.
  unfold upper_digit_ok in H. rewrite Hc in H. simpl in H.
  apply andb_true_iff in H as [H1 H2]. split; [exact H1|lia].
Qed.

Lemma hex_to_rgb_upper6 (s : string) :
  valid_hex6 s = true ->
  valid_hex6 (Py.upper s) = true /\ hex_to_rgb (Py.upper s) = hex_to_rgb s.
Proof.
  intros Hs.
  destruct (valid_hex6_inv s Hs) as (c1 & c2 & c3 & c4 & c5 & c6 & -> & H1 & H2 & H3 & H4 & H5 & H6).
  destruct (upper_digit _ H1) as [U1 V1]. destruct (upper_digit _ H2) as [U2 V2].
  destruct (upper_digit _ H3) as [U3 V3]. destruct (upper_digit _ H4) as [U4 V4].
  destruct (upper_digit _ H5) as [U5 V5]. destruct (upper_digit _ H6) as [U6 V6].
  change (Py.upper (String c1 (String c2 (String c3 (String c4 (String c5 (String c6 "")))))))
    with (String (Py.upper_char c1) (String (Py.upper_char c2) (String (Py.upper_char c3)
           (String (Py.upper_char c4) (String (Py.upper_char c5) (String (Py.upper_char c6) "")))))).
  split.
  - unfold valid_hex6. cbn [String.length all_hex].
    rewrite U1, U2, U3, U4, U5, U6. reflexivity.
  - rewrite !hex_to_rgb_digits by assumption.
    unfold hex_byte. by rewrite V1, V2, V3, V4, V5, V6.
Qed.

Lemma hex_to_rgb_upper (h : string) :
  is_hex_color h = true -> hex_to_rgb (Py.upper h) = hex_to_rgb h.
Proof.
  intros Hh. destruct h as [|c s]; [discriminate|].
  unfold is_hex_color in Hh. destruct (Ascii.eqb c "#") eqn:Ec.
  - apply Ascii.eqb_eq in Ec as ->.
    destruct (hex_to_rgb_upper6 s Hh) as [_ Hu].
    change (Py.upper (String "#" s)) with (hashes 1 +:+ Py.upper s).
    change (String "#" s) with (hashes 1 +:+ s).
    by rewrite !hex_to_rgb_hashes.
  - exact (proj2 (hex_to_rgb_upper6 _ Hh)).
Qed.

(** Six hex digits decide the result, whatever follows them. *)
Lemma hex_to_rgb_digits_then (c1 c2 c3 c4 c5 c6 : ascii) (t : string) :
  is_hex_digit c1 = true ->
  hex_to_rgb (String c1 (String c2 (String c3 (String c4 (String c5 (String c6 t))))))
  = hex_to_rgb (String c1 (String c2 (String c3 (String c4 (String c5 (String c6 "")))))).
Proof.
  intros H1. unfold hex_to_rgb.
  pose proof (hex_digit_not_hash c1 H1) as Hn.
  assert (forall u, Py.lstrip "#" (String c1 u) = String c1 u) as Hl.
  { intros u. cbn [Py.lstrip]. by rewrite Hn. }
  rewrite !Hl. reflexivity.
Qed.

(** ** Channel values written and read back *)

Lemma byte_table : forallb byte_ok (seq 0 256) = true.
Proof. vm_compute. reflexivity. Qed.

Lemma format_02X_byte (v : Z) :
  0 <= v <= 255 ->
  exists a b,
    Py.format_02X v = pair a b
    /\ is_hex_digit a = true /\ is_hex_digit b = true
    /\ hex_byte a b = v
    /\ Py.int16 ("0x" +:+ pair a b) = Ok v.
Proof.
  intros Hv. pose proof byte_table as H. rewrite forallb_forall in H.
  specialize (H (Z.to_nat v)). rewrite in_seq in H.
  assert (byte_ok (Z.to_nat v) = true) as Hb by (apply H; lia). clear H.
  unfold byte_ok in Hb. rewrite Z2Nat.id in Hb by lia.
  destruct (Py.format_02X v) as [|a [|b [|c t]]]; try discriminate.
  exists a, b.
  apply andb_true_iff in Hb as [Hb H4]. apply andb_true_iff in Hb as [Hb H3].
  apply andb_true_iff in Hb as [H1 H2].
  unfold result_Z_eqb in H4.
  destruct (Py.int16 ("0x" +:+ pair a b)) as [v'|]; [|discriminate].
  repeat split; try assumption; [lia|f_equal; lia].
Qed.

(** ** What stands in the way of a run *)

Section obstacles.
Implicit Types (f : gmap string node) (p q : string) (ps : list string).
Implicit Types (j : job) (js : list job) (w : world).

Lemma is_ok_bind {A B : Type} (m : result A) (k : A -> result B) :
  is_ok (m ≫= k) = match m with Ok a => is_ok (k a) | Raise _ => false end.
Proof. by destruct m. Qed.

Lemma forallb_eq {A : Type} (g h : A -> bool) (xs : list A) :
  (forall x, x ∈ xs -> g x = h x) -> forallb g xs = forallb h xs.
Proof.
  induction xs as [|x xs IH]; intros H; [reflexivity|]. simpl.
  rewrite (H x) by apply list_elem_of_here.
  rewrite IH; [reflexivity|]. intros y Hy. apply H. by apply list_elem_of_further.
Qed.

Lemma mem_string_false p ps : mem_string p ps = false -> p ∉ ps.
Proof.
  unfold mem_string. intros H Hin. apply list_elem_of_In in Hin.
  assert (existsb (String.eqb p) ps = true) as Ht.
  { apply existsb_exists. exists p. split; [exact Hin | apply String.eqb_refl]. }
  congruence.
Qed.

Lemma mkdir_ok leaf p f :
  is_ok (Os.mkdir_exist_ok leaf p f) = negb (is_file f p).
Proof.
  unfold Os.mkdir_exist_ok, is_file. by destruct (f !! p) as [[|c]|].
Qed.

Lemma mkdir_raise leaf p f e :
  Os.mkdir_exist_ok leaf p f = Raise e ->
  is_file f p = true
  /\ e = if leaf then FileExistsError else NotADirectoryError.
Proof.
  unfold Os.mkdir_exist_ok, is_file.
  destruct (f !! p) as [[|c]|]; intros [= <-]; done.
Qed.

Lemma mkdir_is_file leaf p f f' q :
  Os.mkdir_exist_ok leaf p f = Ok f' -> is_file f' q = is_file f q.
Proof.
  unfold Os.mkdir_exist_ok, is_file.
  destruct (f !! p) as [[|c]|] eqn:E; intros [= <-]; [reflexivity|].
  destruct (decide (q = p)) as [->|Hne].
  - by rewrite lookup_insert_eq, E.
  - by rewrite lookup_insert_ne.
Qed.

Lemma mkdirs_is_file ps f f' q :
  for_each ps (Os.mkdir_exist_ok false) f = Ok f' -> is_file f' q = is_file f q.
Proof.
  revert f. induction ps as [|p ps IH]; intros f; simpl.
  - by intros [= <-].
  - intros H. apply bind_inv in H as (f1 & H1 & H2).
    rewrite (IH _ H2). by eapply mkdir_is_file.
Qed.

Lemma mkdirs_ok ps f :
  is_ok (for_each ps (Os.mkdir_exist_ok false) f)
  = forallb (fun d => negb (is_file f d)) ps.
Proof.
  revert f. induction ps as [|p ps IH]; intros f; [reflexivity|].
  cbn [for_each forallb]. rewrite is_ok_bind, <- (mkdir_ok false).
  destruct (Os.mkdir_exist_ok false p f) as [f1|e] eqn:E; [|reflexivity].
  rewrite IH. simpl. apply forallb_eq. intros d _.
  by rewrite (mkdir_is_file _ _ _ _ d E).
Qed.

Lemma mkdirs_raise ps f e :
  for_each ps (Os.mkdir_exist_ok false) f = Raise e -> e = NotADirectoryError.
Proof.
  revert f. induction ps as [|p ps IH]; intros f; simpl; [discriminate|].
  destruct (Os.mkdir_exist_ok false p f) as [f1|e1] eqn:E.
  - rewrite bind_ok. apply IH.
  - rewrite bind_raise. intros [= <-]. by apply mkdir_raise in E as [_ ->].
Qed.

(** A file among the ancestors stops [os.makedirs] with
    [NotADirectoryError]. *)
Lemma mkdirs_blocked ps f :
  existsb (is_file f) ps = true ->
  for_each ps (Os.mkdir_exist_ok false) f = Raise NotADirectoryError.
Proof.
  intros Hex.
  destruct (for_each ps (Os.mkdir_exist_ok false) f) as [f'|e] eqn:E.
  - pose proof (mkdirs_ok ps f) as Hok. rewrite E in Hok. simpl in Hok.
    symmetry in Hok. rewrite forallb_forall in Hok.
    apply existsb_exists in Hex as (d & Hd & Hfile).
    specialize (Hok d Hd). rewrite Hfile in Hok. discriminate.
  - by rewrite (mkdirs_raise _ _ _ E).
Qed.

Lemma makedirs_blocked p f :
  existsb (is_file f) (Os.ancestors p) = true ->
  Os.makedirs p f = Raise NotADirectoryError.
Proof. intros H. unfold Os.makedirs. by rewrite (mkdirs_blocked _ _ H). Qed.

Lemma makedirs_is_file p f f' q :
  Os.makedirs p f = Ok f' -> is_file f' q = is_file f q.
Proof.
  unfold Os.makedirs. intros H. apply bind_inv in H as (f1 & H1 & H2).
  rewrite (mkdir_is_file _ _ _ _ q H2). by eapply mkdirs_is_file.
Qed.

Lemma makedirs_ok p f :
  is_ok (Os.makedirs p f)
  = forallb (fun d => negb (is_file f d)) (Os.ancestors p ++ [p])%list.
Proof.
  unfold Os.makedirs. rewrite forallb_app, is_ok_bind, <- mkdirs_ok.
  destruct (for_each (Os.ancestors p) (Os.mkdir_exist_ok false) f) as [f1|e] eqn:E;
    [|reflexivity].
  rewrite mkdir_ok. simpl. by rewrite (mkdirs_is_file _ _ _ p E), andb_true_r.
Qed.

Lemma makedirs_raise p f e :
  Os.makedirs p f = Raise e -> is_fs_error e = true.
Proof.
  unfold Os.makedirs.
  destruct (for_each (Os.ancestors p) (Os.mkdir_exist_ok false) f) as [f1|e1] eqn:E.
  - rewrite bind_ok. intros H. by apply mkdir_raise in H as [_ ->].
  - rewrite bind_raise. intros [= <-]. by rewrite (mkdirs_raise _ _ _ E).
Qed.

(** Writing into a directory that exists fails only on a directory. *)
Lemma write_text_in_dir p text d f :
  last (Os.ancestors p) = Some d -> f !! d = Some Dir ->
  Os.write_text p text f
  = if is_dir f p then Raise IsADirectoryError else Ok (<[p := File text]> f).
Proof.
  intros Hd Hdir. unfold Os.write_text, is_dir. rewrite Hd, Hdir.
  by destruct (f !! p) as [[|c]|].
Qed.

Lemma job_wf_inv j :
  job_wf j = true -> last (Os.ancestors (job_path j)) = Some (job_dir j).
Proof.
  unfold job_wf. destruct (last (Os.ancestors (job_path j))) as [d|]; [|discriminate].
  intros H. apply String.eqb_eq in H. by subst d.
Qed.

(** The steps of a job whose directory exists after [os.makedirs]. *)
Lemma run_job_steps j w :
  job_wf j = true ->
  run_job j w
  = match Os.makedirs (job_dir j) (fs w) with
    | Ok f1 =>
        if is_dir f1 (job_path j) then Raise IsADirectoryError
        else Ok (print (job_line j)
                   (set_fs (<[job_path j := File (job_text j)]> f1) w))
    | Raise e => Raise e
    end.
Proof.
  intros Hwf. unfold run_job.
  destruct (Os.makedirs (job_dir j) (fs w)) as [f1|e] eqn:E; [|reflexivity].
  rewrite bind_ok.
  rewrite (write_text_in_dir _ _ (job_dir j)).
  - by destruct (is_dir f1 (job_path j)).
  - by apply job_wf_inv.
  - apply makedirs_inv in E as (Hdirs & _).
    apply Forall_app in Hdirs as [_ Hdir].
    by apply Forall_cons in Hdir as [Hdir _].
Qed.

Lemma run_job_ok j w :
  job_wf j = true -> job_path j ∉ job_dirs j ->
  is_ok (run_job j w) = job_clear (fs w) j.
Proof.
  intros Hwf Hapart. rewrite (run_job_steps _ _ Hwf). unfold job_clear, job_dirs.
  rewrite <- makedirs_ok.
  destruct (Os.makedirs (job_dir j) (fs w)) as [f1|e] eqn:E; [|reflexivity].
  apply makedirs_inv in E as (_ & _ & Hframe).
  unfold is_dir. rewrite (Hframe _ Hapart). simpl.
  by destruct (fs w !! job_path j) as [[|c]|].
Qed.

Lemma run_job_raise j w e :
  job_wf j = true -> run_job j w = Raise e -> is_fs_error e = true.
Proof.
  intros Hwf. rewrite (run_job_steps _ _ Hwf).
  destruct (Os.makedirs (job_dir j) (fs w)) as [f1|e1] eqn:E.
  - destruct (is_dir f1 (job_path j)); [|discriminate]. by intros [= <-].
  - intros [= <-]. by eapply makedirs_raise.
Qed.

Lemma run_job_is_file j w w1 q :
  job_wf j = true -> run_job j w = Ok w1 -> q ≠ job_path j ->
  is_file (fs w1) q = is_file (fs w) q.
Proof.
  intros Hwf. rewrite (run_job_steps _ _ Hwf).
  destruct (Os.makedirs (job_dir j) (fs w)) as [f1|e1] eqn:E; [|discriminate].
  destruct (is_dir f1 (job_path j)); [discriminate|]. intros [= <-] Hq.
  cbn [fs print set_fs]. rewrite <- (makedirs_is_file _ _ _ q E).
  unfold is_file. by rewrite lookup_insert_ne.
Qed.

Lemma run_job_is_dir j w w1 q :
  job_wf j = true -> run_job j w = Ok w1 -> q ∉ job_dirs j ->
  is_dir (fs w1) q = is_dir (fs w) q.
Proof.
  intros Hwf. rewrite (run_job_steps _ _ Hwf).
  destruct (Os.makedirs (job_dir j) (fs w)) as [f1|e1] eqn:E; [|discriminate].
  destruct (is_dir f1 (job_path j)) eqn:Ed; [discriminate|]. intros [= <-] Hq.
  cbn [fs print set_fs].
  apply makedirs_inv in E as (_ & _ & Hframe).
  destruct (decide (q = job_path j)) as [->|Hne].
  - unfold is_dir in *. rewrite lookup_insert_eq. rewrite <- (Hframe _ Hq).
    exact (eq_sym Ed).
  - unfold is_dir. rewrite lookup_insert_ne by done. by rewrite (Hframe _ Hq).
Qed.

(** A job that has run leaves the way clear for the jobs it keeps apart
    from exactly when the way was clear before. *)
Lemma job_clear_after j j' w w1 :
  job_wf j = true -> run_job j w = Ok w1 ->
  job_path j ∉ job_dirs j' -> job_path j' ∉ job_dirs j ->
  job_clear (fs w1) j' = job_clear (fs w) j'.
Proof.
  intros Hwf Hrun H1 H2. unfold job_clear.
  rewrite (run_job_is_dir _ _ _ _ Hwf Hrun H2). f_equal.
  apply forallb_eq. intros d Hd. rewrite (run_job_is_file _ _ _ d Hwf Hrun); [done|].
  intros ->. contradiction.
Qed.

Lemma paths_apart_inv js :
  paths_apart js = true ->
  forall j j', j ∈ js -> j' ∈ js -> job_path j ∉ job_dirs j'.
Proof.
  unfold paths_apart. intros H j j' Hj Hj'. rewrite forallb_forall in H.
  specialize (H j (proj1 (list_elem_of_In _ _) Hj)). rewrite forallb_forall in H.
  specialize (H j' (proj1 (list_elem_of_In _ _) Hj')).
  apply mem_string_false. by destruct (mem_string (job_path j) (job_dirs j')).
Qed.

Lemma run_jobs_ok js w :
  forallb job_wf js = true ->
  (forall j j', j ∈ js -> j' ∈ js -> job_path j ∉ job_dirs j') ->
  is_ok (for_each js run_job w) = forallb (job_clear (fs w)) js.
Proof.
  revert w. induction js as [|j js IH]; intros w Hwf Hapart; [reflexivity|].
  cbn [for_each forallb]. simpl in Hwf. apply andb_prop in Hwf as [Hj Hwf].
  rewrite is_ok_bind, <- (run_job_ok j w Hj)
    by (apply Hapart; apply list_elem_of_here).
  destruct (run_job j w) as [w1|e] eqn:E; [|reflexivity].
  rewrite IH; [|exact Hwf|].
  - simpl. apply forallb_eq. intros j' Hj'.
    apply (job_clear_after j j' w w1 Hj E);
      apply Hapart; first [apply list_elem_of_here | by apply list_elem_of_further].
  - intros a b Ha Hb. apply Hapart; by apply list_elem_of_further.
Qed.

Lemma run_jobs_raise js w e :
  forallb job_wf js = true ->
  for_each js run_job w = Raise e -> is_fs_error e = true.
Proof.
  revert w. induction js as [|j js IH]; intros w Hwf; simpl; [discriminate|].
  simpl in Hwf. apply andb_prop in Hwf as [Hj Hwf].
  destruct (run_job j w) as [w1|e1] eqn:E.
  - rewrite bind_ok. by apply IH.
  - rewrite bind_raise. intros [= <-]. by eapply run_job_raise.
Qed.

(** A file above the directory of the first job stops the run at once. *)
Lemma run_jobs_blocked j js w :
  existsb (is_file (fs w)) (Os.ancestors (job_dir j)) = true ->
  for_each (j :: js) run_job w = Raise NotADirectoryError.
Proof.
  intros H. cbn [for_each].
  assert (run_job j w = Raise NotADirectoryError) as ->; [|reflexivity].
  unfold run_job.
  assert (Os.makedirs (job_dir j) (fs w) = Raise NotADirectoryError) as ->;
    [|reflexivity].
  unfold Os.makedirs. by rewrite (mkdirs_blocked _ _ H).
Qed.



End obstacles.

(** ** Why a run fails *)

Section causes.
Implicit Types (f : gmap string node) (p q : string) (ps : list string).
Implicit Types (j : job) (js : list job) (w : world).

Lemma forallb_negb_false {A : Type} (g : A -> bool) (xs : list A) :
  forallb (fun x => negb (g x)) xs = false -> existsb g xs = true.
Proof.
  induction xs as [|x xs IH]; simpl; [discriminate|].
  destruct (g x); simpl; [reflexivity | exact IH].
Qed.

Lemma existsb_eq {A : Type} (g h : A -> bool) (xs : list A) :
  (forall x, x ∈ xs -> g x = h x) -> existsb g xs = existsb h xs.
Proof.
  induction xs as [|x xs IH]; intros H; [reflexivity|]. simpl.
  rewrite (H x) by apply list_elem_of_here.
  rewrite IH; [reflexivity|]. intros y Hy. apply H. by apply list_elem_of_further.
Qed.

Lemma makedirs_cause p f e :
  Os.makedirs p f = Raise e ->
  (e = NotADirectoryError /\ existsb (is_file f) (Os.ancestors p) = true)
  \/ (e = FileExistsError /\ is_file f p = true).
Proof.
  unfold Os.makedirs.
  destruct (for_each (Os.ancestors p) (Os.mkdir_exist_ok false) f) as [f1|e1] eqn:E.
  - rewrite bind_ok. intros H. apply mkdir_raise in H as [Hfile ->].
    right. split; [reflexivity|]. by rewrite <- (mkdirs_is_file _ _ _ p E).
  - rewrite bind_raise. intros [= <-]. left.
    split; [by apply mkdirs_raise in E|].
    apply forallb_negb_false. rewrite <- mkdirs_ok. by rewrite E.
Qed.

Lemma run_job_cause j w e :
  job_wf j = true -> job_path j ∉ job_dirs j ->
  run_job j w = Raise e -> job_cause (fs w) j e.
Proof.
  intros Hwf Hapart. rewrite (run_job_steps _ _ Hwf). unfold job_cause.
  destruct (Os.makedirs (job_dir j) (fs w)) as [f1|e1] eqn:E.
  - destruct (is_dir f1 (job_path j)) eqn:Ed; [|discriminate]. intros [= <-].
    right. right. split; [reflexivity|].
    apply makedirs_inv in E as (_ & _ & Hframe).
    unfold is_dir in *. by rewrite <- (Hframe _ Hapart).
  - intros [= <-]. destruct (makedirs_cause _ _ _ E) as [H|H]; tauto.
Qed.

Lemma job_cause_before j j' w w1 e :
  job_wf j = true -> run_job j w = Ok w1 ->
  job_path j ∉ job_dirs j' -> job_path j' ∉ job_dirs j ->
  job_cause (fs w1) j' e -> job_cause (fs w) j' e.
Proof.
  intros Hwf Hrun H1 H2. unfold job_cause.
  assert (forall d, d ∈ job_dirs j' -> is_file (fs w1) d = is_file (fs w) d) as Hfile.
  { intros d Hd. apply (run_job_is_file _ _ _ d Hwf Hrun). intros ->. contradiction. }
  rewrite (run_job_is_dir _ _ _ _ Hwf Hrun H2).
  rewrite (Hfile (job_dir j'))
    by (unfold job_dirs; apply elem_of_app; right; apply list_elem_of_here).
  rewrite (existsb_eq (is_file (fs w1)) (is_file (fs w))); [tauto|].
  intros d Hd. apply Hfile. unfold job_dirs. apply elem_of_app. by left.
Qed.

Lemma run_jobs_cause js w e :
  forallb job_wf js = true ->
  (forall j j', j ∈ js -> j' ∈ js -> job_path j ∉ job_dirs j') ->
  for_each js run_job w = Raise e ->
  exists j, j ∈ js /\ job_cause (fs w) j e.
Proof.
  revert w. induction js as [|j js IH]; intros w Hwf Hapart; simpl; [discriminate|].
  simpl in Hwf. apply andb_prop in Hwf as [Hj Hwf].
  destruct (run_job j w) as [w1|e1] eqn:E.
  - rewrite bind_ok. intros H.
    destruct (IH w1 Hwf) as (j' & Hin & Hc); [|exact H|].
    + intros a b Ha Hb. apply Hapart; by apply list_elem_of_further.
    + exists j'. split; [by apply list_elem_of_further|].
      apply (job_cause_before j j' w w1 e Hj E); [| |exact Hc];
        apply Hapart; first [apply list_elem_of_here | by apply list_elem_of_further].
  - rewrite bind_raise. intros [= <-]. exists j. split; [apply list_elem_of_here|].
    apply run_job_cause; [exact Hj| |exact E].
    apply Hapart; apply list_elem_of_here.
Qed.


End causes.

(** ** The jobs of a table *)

Lemma forallb_const_and {A : Type} (a : bool) (g : A -> bool) (xs : list A) :
  xs ≠ [] -> forallb (fun x => a && g x) xs = a && forallb g xs.
Proof.
  intros Hne. destruct a; simpl; [reflexivity|].
  destruct xs as [|x xs]; [done | reflexivity].
Qed.

Lemma forallb_map_list {A B : Type} (h : A -> B) (g : B -> bool) (xs : list A) :
  forallb g (map h xs) = forallb (fun x => g (h x)) xs.
Proof. induction xs as [|x xs IH]; simpl; [reflexivity | by rewrite IH]. Qed.

Section table_jobs.
Context {V : Type}.
Variable table : list (string * list (string * V)).
Variable mkjob : string * V -> job.
Hypothesis Hdir : forall entry, job_dir (mkjob entry) = colorset_dir entry.1.
Hypothesis Hanc : ancestors_fixed table = true.
Hypothesis Hne : variants table ≠ [].

Lemma table_ancestors (entry : string * V) :
  entry ∈ variants table ->
  Os.ancestors (job_dir (mkjob entry)) = ["Assets"; "Assets/Colors.xcassets"].
Proof.
  intros Hin. unfold ancestors_fixed in Hanc. rewrite forallb_forall in Hanc.
  apply list_elem_of_In in Hin. rewrite Hdir.
  exact (bool_decide_eq_true_1 _ (Hanc entry Hin)).
Qed.

Lemma table_job_path (entry : string * V) :
  job_path (mkjob entry) = contents_path entry.1.
Proof. unfold job_path. rewrite Hdir. apply job_path_contents. Qed.

Lemma table_job_clear (f : gmap string node) (entry : string * V) :
  entry ∈ variants table ->
  job_clear f (mkjob entry)
  = (negb (is_file f "Assets") && negb (is_file f "Assets/Colors.xcassets"))
    && (negb (is_file f (colorset_dir entry.1))
        && negb (is_dir f (contents_path entry.1))).
Proof.
  intros Hin. unfold job_clear, job_dirs.
  rewrite (table_ancestors _ Hin), table_job_path, Hdir.
  cbn [app forallb]. rewrite andb_true_r, !andb_assoc. reflexivity.
Qed.

Lemma table_clear (f : gmap string node) :
  forallb (job_clear f) (map mkjob (variants table))
  = way_clear (variant_names table) f.
Proof.
  unfold way_clear, variant_names. rewrite !forallb_map_list.
  rewrite <- forallb_const_and by exact Hne.
  apply forallb_eq. intros entry Hin. by apply table_job_clear.
Qed.

Lemma table_cause (f : gmap string node) (entry : string * V) (e : exn) :
  entry ∈ variants table ->
  job_cause f (mkjob entry) e ->
  (e = NotADirectoryError
   /\ is_file f "Assets" || is_file f "Assets/Colors.xcassets" = true)
  \/ (e = FileExistsError /\ is_file f (colorset_dir entry.1) = true)
  \/ (e = IsADirectoryError /\ is_dir f (contents_path entry.1) = true).
Proof.
  intros Hin. unfold job_cause.
  rewrite (table_ancestors _ Hin), table_job_path, Hdir.
  cbn [existsb]. rewrite orb_false_r. tauto.
Qed.

Lemma table_blocked (w : world) :
  is_file (fs w) "Assets" || is_file (fs w) "Assets/Colors.xcassets" = true ->
  for_each (map mkjob (variants table)) run_job w = Raise NotADirectoryError.
Proof.
  intros H. destruct (variants table) as [|entry es] eqn:E; [done|].
  cbn [map]. apply run_jobs_blocked.
  rewrite table_ancestors by (rewrite E; apply list_elem_of_here).
  cbn [existsb]. by rewrite orb_false_r.
Qed.

End table_jobs.

Lemma light_jobs_apart : paths_apart light_jobs = true.
Proof. vm_compute. reflexivity. Qed.

Lemma dark_jobs_apart : paths_apart dark_jobs = true.
Proof. vm_compute. reflexivity. Qed.

Lemma light_variants : variants ColorSets.colors ≠ [].
Proof. discriminate. Qed.

Lemma dark_variants : variants DarkMode.colors ≠ [].
Proof. discriminate. Qed.


Lemma same_variant_names :
  variant_names DarkMode.colors = variant_names ColorSets.colors.
Proof. reflexivity. Qed.

(** A run in terms of its jobs. *)
Lemma is_ok_run (js : list job) (line : string) (w : world) :
  is_ok (for_each js run_job w ≫= fun w' => Ok (print line w'))
  = is_ok (for_each js run_job w).
Proof. by destruct (for_each js run_job w). Qed.

Lemma run_raise (js : list job) (line : string) (w : world) (e : exn) :
  (for_each js run_job w ≫= fun w' => Ok (print line w')) = Raise e ->
  for_each js run_job w = Raise e.
Proof. by destruct (for_each js run_job w). Qed.

(** The lines of a run. *)
Lemma light_lines :
  map job_line light_jobs = map light_line (variant_names ColorSets.colors).
Proof.
  unfold light_jobs, variant_names. rewrite !map_map. apply map_ext.
  intros entry. cbn [light_job job_line]. unfold light_line.
  rewrite job_path_contents. reflexivity.
Qed.

Lemma dark_lines :
  map job_line dark_jobs = map dark_line (variant_names DarkMode.colors).
Proof.
  unfold dark_jobs, variant_names. rewrite !map_map. apply map_ext.
  intros entry. cbn [dark_job job_line]. unfold dark_line, colorset_dir.
  rewrite !append_assoc. reflexivity.
Qed.




(** ** The text of a document *)

Lemma plain_digit_table : forall_char plain_digit = true.
Proof. vm_compute. reflexivity. Qed.

Lemma escape_upper_digit (c : ascii) :
  is_hex_digit c = true ->
  Json.escape_char (Py.upper_char c) = String (Py.upper_char c) EmptyString.
Proof.
  intros Hc. pose proof (forall_char_true _ plain_digit_table c) as H.
  unfold plain_digit in H. rewrite Hc in H. by apply String.eqb_eq in H.
Qed.

(** The colours of a hex value are written with its digits in upper
    case. *)
Lemma hex_color_formats (h : string) :
  is_hex_color h = true ->
  exists c1 c2 c3 c4 c5 c6,
    Py.lstrip "#" h
    = String c1 (String c2 (String c3 (String c4 (String c5 (String c6 "")))))
    /\ hex_to_rgb h = Ok (hex_byte c1 c2, hex_byte c3 c4, hex_byte c5 c6)
    /\ Py.format_02X (hex_byte c1 c2) = pair (Py.upper_char c1) (Py.upper_char c2)
    /\ Py.format_02X (hex_byte c3 c4) = pair (Py.upper_char c3) (Py.upper_char c4)
    /\ Py.format_02X (hex_byte c5 c6) = pair (Py.upper_char c5) (Py.upper_char c6)
    /\ (forall c, c ∈ [c1; c2; c3; c4; c5; c6] ->
          Json.escape_char (Py.upper_char c) = String (Py.upper_char c) EmptyString).
Proof.
  intros Hh. destruct (hex_color_digits h Hh) as [Hv Hd].
  destruct (valid_hex6_inv _ Hv) as (c1 & c2 & c3 & c4 & c5 & c6 & E & H1 & H2 & H3 & H4 & H5 & H6).
  exists c1, c2, c3, c4, c5, c6. split; [exact E|].
  rewrite Hd, E. split; [by apply hex_to_rgb_digits|].
  split; [apply (hex_pair_spec c1 c2); assumption|].
  split; [apply (hex_pair_spec c3 c4); assumption|].
  split; [apply (hex_pair_spec c5 c6); assumption|].
  intros c Hc. apply escape_upper_digit.
  repeat (apply elem_of_cons in Hc as [->|Hc]; [assumption|]).
  by apply elem_of_nil in Hc.
Qed.

(** * The claims *)

(** C1 (as amended): for an input string whose code points are all below
    256, which are the strings [string] stands for, [hex_to_rgb] raises
    [ValueError] exactly when, after all leading [#] are stripped, one of
    the slices [0:2], [2:4], [4:6] of the remainder is not of a form
    [int(., 16)] accepts: two hex digits, one hex digit alone, one hex
    digit with one white space before or after it, or one hex digit after
    a sign.  This is the case whenever the remainder has at most four
    characters (the last slice is then empty), and whenever a slice holds
    a character that is neither a hex digit, nor white space, nor a sign.
    From U+0100 on [int(., 16)] also takes the decimal digits and the
    white space of other scripts; such strings are not covered here. *)
Theorem hex_to_rgb_raises (s : string) :
  let rest := Py.lstrip "#" s in
  ((String.length rest <= 4)%nat
   \/ accepted_slice (Py.slice 0 2 rest) = false
   \/ accepted_slice (Py.slice 2 4 rest) = false
   \/ accepted_slice (Py.slice 4 6 rest) = false)
  <-> hex_to_rgb s = Raise ValueError.
Proof.
  intros rest. pose proof (hex_to_rgb_ok s) as Hok. fold rest in Hok.
  split.
  - intros H.
    assert (is_ok (hex_to_rgb s) = false) as Hf.
    { rewrite Hok. destruct H as [H|[H|[H|H]]].
      - rewrite (slice_beyond 4 6 rest H). simpl. apply andb_false_r.
      - rewrite H. reflexivity.
      - rewrite H. apply andb_false_iff. left. apply andb_false_r.
      - rewrite H. apply andb_false_r. }
    destruct (hex_to_rgb s) as [rgb|e] eqn:E; [discriminate|].
    by rewrite (hex_to_rgb_error s e E).
  - intros H. rewrite H in Hok. simpl in Hok. symmetry in Hok.
    apply andb_false_iff in Hok as [Hok|Hok]; [|tauto].
    apply andb_false_iff in Hok as [Hok|Hok]; tauto.
Qed.

Lemma hex_to_rgb_raises_witness :
  hex_to_rgb "#1234" = Raise ValueError /\ hex_to_rgb "#12_456" = Raise ValueError.
Proof.
  split.
  - apply (hex_to_rgb_raises "#1234"). left. simpl. lia.
  - apply (hex_to_rgb_raises "#12_456"). right. right. left. reflexivity.
Defined.

(** C1 as stated fails: a remainder of five characters is decoded, its
    last slice being the single digit; and slices that hold a sign or a
    blank next to a digit are decoded too. *)
Lemma hex_to_rgb_decodes_malformed :
  ((String.length (Py.lstrip "#" "#12345") < 6)%nat
   /\ hex_to_rgb "#12345" = Ok (18, 52, 5))
  /\ (is_hex_digit "+" = false /\ is_hex_digit " " = false
      /\ is_hex_digit "-" = false
      /\ hex_to_rgb "#+1 2-3" = Ok (1, 2, -3)).
Proof. repeat split; simpl; lia. Qed.

(** C10: [hex_to_rgb] strips every leading [#]: for six valid hex
    digits [s] and any number [n] of [#] before them, decoding succeeds
    and gives what decoding [s] gives. *)
Theorem hex_to_rgb_strips_every_hash (s : string) (n : nat) :
  valid_hex6 s = true ->
  hex_to_rgb (hashes n +:+ s) = hex_to_rgb s
  /\ exists r g b, hex_to_rgb (hashes n +:+ s) = Ok (r, g, b).
Proof.
  intros H. rewrite hex_to_rgb_hashes. split; [reflexivity|].
  destruct (hex_to_rgb_valid s H) as (c1&c2&c3&c4&c5&c6&_&E&_).
  rewrite E. eauto.
Qed.

Lemma hex_to_rgb_strips_every_hash_witness :
  hex_to_rgb "###34C759" = hex_to_rgb "34C759"
  /\ exists r g b, hex_to_rgb "###34C759" = Ok (r, g, b).
Proof. exact (hex_to_rgb_strips_every_hash "34C759" 3 eq_refl). Defined.

(** C4: for a valid hex colour [h] (six hex digits, with or without the
    [#]), decoding and writing each channel as [0x] followed by the [02X]
    format gives back the three digit pairs of [h] in upper case; these
    are the components of the document built from [h]. *)
Theorem decode_then_encode (color_name h : string) :
  is_hex_color h = true ->
  let digits := Py.lstrip "#" h in
  exists r g b e,
    hex_to_rgb h = Ok (r, g, b)
    /\ channel r = JStr ("0x" +:+ Py.upper (Py.slice 0 2 digits))
    /\ channel g = JStr ("0x" +:+ Py.upper (Py.slice 2 4 digits))
    /\ channel b = JStr ("0x" +:+ Py.upper (Py.slice 4 6 digits))
    /\ (colors_of <$> ColorSets.create_color_set_json color_name h) = Ok (Some [e])
    /\ component "red" e = Some (JStr ("0x" +:+ Py.upper (Py.slice 0 2 digits)))
    /\ component "green" e = Some (JStr ("0x" +:+ Py.upper (Py.slice 2 4 digits)))
    /\ component "blue" e = Some (JStr ("0x" +:+ Py.upper (Py.slice 4 6 digits))).
Proof.
  intros H digits. destruct (hex_color_digits h H) as [Hv Hh]. fold digits in Hv, Hh.
  destruct (hex_to_rgb_valid digits Hv) as (c1&c2&c3&c4&c5&c6&Ed&E&F1&F2&F3).
  rewrite <- Hh in E.
  destruct (light_document color_name h _ _ _ E) as (e&Hdoc&_&_&_&_&_&Hr&Hg&Hb).
  exists (hex_byte c1 c2), (hex_byte c3 c4), (hex_byte c5 c6), e.
  rewrite Ed. change (Py.slice 0 2 _) with (pair c1 c2).
  change (Py.slice 2 4 _) with (pair c3 c4).
  change (Py.slice 4 6 _) with (pair c5 c6).
  unfold channel in *. rewrite F1, F2, F3 in *.
  rewrite Hdoc. by repeat split.
Qed.

Lemma decode_then_encode_witness :
  exists r g b e,
    hex_to_rgb "#fad58a" = Ok (r, g, b)
    /\ channel r = JStr "0xFA" /\ channel g = JStr "0xD5" /\ channel b = JStr "0x8A"
    /\ (colors_of <$> ColorSets.create_color_set_json "yellow200" "#fad58a")
       = Ok (Some [e])
    /\ component "red" e = Some (JStr "0xFA")
    /\ component "green" e = Some (JStr "0xD5")
    /\ component "blue" e = Some (JStr "0x8A").
Proof. exact (decode_then_encode "yellow200" "#fad58a" eq_refl). Defined.

(** C3: for a valid hex colour, the light-only builder returns a
    document whose [colors] has exactly one entry; the entry has no
    [appearances] field, the idiom [universal], the colour space [srgb],
    and the components decoded from the hex value. *)
Theorem light_only_document (color_name hex_value : string) :
  is_hex_color hex_value = true ->
  exists doc e r g b,
    ColorSets.create_color_set_json color_name hex_value = Ok doc
    /\ hex_to_rgb hex_value = Ok (r, g, b)
    /\ colors_of doc = Some [e]
    /\ Json.field "appearances" e = None
    /\ Json.field "idiom" e = Some (JStr "universal")
    /\ color_space e = Some (JStr "srgb")
    /\ component "red" e = Some (channel r)
    /\ component "green" e = Some (channel g)
    /\ component "blue" e = Some (channel b).
Proof.
  intros H. destruct (hex_color_digits hex_value H) as [Hv Hh].
  destruct (hex_to_rgb_valid _ Hv) as (c1&c2&c3&c4&c5&c6&_&E&_).
  rewrite <- Hh in E.
  destruct (light_document color_name hex_value _ _ _ E)
    as (e&Hdoc&_&Ha&Hi&Hs&_&Hr&Hg&Hb).
  eexists _, e, _, _, _. split; [exact Hdoc|]. split; [exact E|].
  by repeat split.
Qed.

Lemma light_only_document_witness :
  exists doc e r g b,
    ColorSets.create_color_set_json "navy500" "#1C274C" = Ok doc
    /\ hex_to_rgb "#1C274C" = Ok (r, g, b)
    /\ colors_of doc = Some [e]
    /\ Json.field "appearances" e = None
    /\ Json.field "idiom" e = Some (JStr "universal")
    /\ color_space e = Some (JStr "srgb")
    /\ component "red" e = Some (channel r)
    /\ component "green" e = Some (channel g)
    /\ component "blue" e = Some (channel b).
Proof. exact (light_only_document "navy500" "#1C274C" eq_refl). Defined.

(** C2: for two valid hex colours, the dark-mode builder returns a
    document whose [colors] has exactly two entries, light first and dark
    second; the first has no [appearances] field, the second has the
    selector luminosity/dark; both have the idiom [universal], the colour
    space [srgb], and the components decoded from their own hex value. *)
Theorem light_dark_document (color_name light_hex dark_hex : string) :
  is_hex_color light_hex = true ->
  is_hex_color dark_hex = true ->
  exists doc e1 e2 lr lg lb dr dg db,
    DarkMode.create_color_set_json color_name light_hex dark_hex = Ok doc
    /\ hex_to_rgb light_hex = Ok (lr, lg, lb)
    /\ hex_to_rgb dark_hex = Ok (dr, dg, db)
    /\ colors_of doc = Some [e1; e2]
    /\ Json.field "appearances" e1 = None
    /\ Json.field "appearances" e2
       = Some (JList [JDict [("appearance", JStr "luminosity");
                             ("value", JStr "dark")]])
    /\ Json.field "idiom" e1 = Some (JStr "universal")
    /\ Json.field "idiom" e2 = Some (JStr "universal")
    /\ color_space e1 = Some (JStr "srgb")
    /\ color_space e2 = Some (JStr "srgb")
    /\ component "red" e1 = Some (channel lr)
    /\ component "green" e1 = Some (channel lg)
    /\ component "blue" e1 = Some (channel lb)
    /\ component "red" e2 = Some (channel dr)
    /\ component "green" e2 = Some (channel dg)
    /\ component "blue" e2 = Some (channel db).
Proof.
  intros Hl Hd.
  destruct (hex_color_digits light_hex Hl) as [Hlv Hlh].
  destruct (hex_color_digits dark_hex Hd) as [Hdv Hdh].
  destruct (hex_to_rgb_valid _ Hlv) as (?&?&?&?&?&?&_&El&_).
  destruct (hex_to_rgb_valid _ Hdv) as (?&?&?&?&?&?&_&Ed&_).
  rewrite <- Hlh in El. rewrite <- Hdh in Ed.
  destruct (dark_document color_name light_hex dark_hex _ _ _ _ _ _ El Ed)
    as (e1&e2&Hdoc&(_&A1&I1&S1&_&R1&G1&B1)&(_&A2&I2&S2&_&R2&G2&B2)).
  eexists _, e1, e2, _, _, _, _, _, _.
  split; [exact Hdoc|]. split; [exact El|]. split; [exact Ed|].
  by repeat split.
Qed.

Lemma light_dark_document_witness :
  exists doc e1 e2 lr lg lb dr dg db,
    DarkMode.create_color_set_json "green500" "#34C759" "1d6d31" = Ok doc
    /\ hex_to_rgb "#34C759" = Ok (lr, lg, lb)
    /\ hex_to_rgb "1d6d31" = Ok (dr, dg, db)
    /\ colors_of doc = Some [e1; e2]
    /\ Json.field "appearances" e1 = None
    /\ Json.field "appearances" e2
       = Some (JList [JDict [("appearance", JStr "luminosity");
                             ("value", JStr "dark")]])
    /\ Json.field "idiom" e1 = Some (JStr "universal")
    /\ Json.field "idiom" e2 = Some (JStr "universal")
    /\ color_space e1 = Some (JStr "srgb")
    /\ color_space e2 = Some (JStr "srgb")
    /\ component "red" e1 = Some (channel lr)
    /\ component "green" e1 = Some (channel lg)
    /\ component "blue" e1 = Some (channel lb)
    /\ component "red" e2 = Some (channel dr)
    /\ component "green" e2 = Some (channel dg)
    /\ component "blue" e2 = Some (channel db).
Proof.
  exact (light_dark_document "green500" "#34C759" "1d6d31" eq_refl eq_refl).
Defined.

(** C5: whatever the variant name and the hex values, a document
    returned by either builder has the [info] block
    [{"author": "xcode", "version": 1}] and the [alpha] component
    ["1.000"] in every entry of [colors]. *)
Theorem alpha_and_info_fixed (color_name hex_value light_hex dark_hex : string)
    (doc : json) :
  ColorSets.create_color_set_json color_name hex_value = Ok doc
  \/ DarkMode.create_color_set_json color_name light_hex dark_hex = Ok doc ->
  Json.field "info" doc
    = Some (JDict [("author", JStr "xcode"); ("version", JInt 1)])
  /\ exists es, colors_of doc = Some es
       /\ Forall (fun e => component "alpha" e = Some (JStr "1.000")) es.
Proof.
  intros [H|H].
  - destruct (hex_to_rgb hex_value) as [[[r g] b]|e] eqn:E.
    + destruct (light_document color_name hex_value r g b E)
        as (e&Hdoc&_&_&_&_&Ha&_).
      rewrite Hdoc in H. injection H as <-.
      split; [reflexivity|]. exists [e]. split; [reflexivity|].
      by repeat constructor.
    + unfold ColorSets.create_color_set_json in H. rewrite E in H. discriminate.
  - destruct (hex_to_rgb light_hex) as [[[lr lg] lb]|e] eqn:El.
    + destruct (hex_to_rgb dark_hex) as [[[dr dg] db]|e] eqn:Ed.
      * destruct (dark_document color_name light_hex dark_hex _ _ _ _ _ _ El Ed)
          as (e1&e2&Hdoc&(_&_&_&_&A1&_)&(_&_&_&_&A2&_)).
        rewrite Hdoc in H. injection H as <-.
        split; [reflexivity|]. exists [e1; e2]. split; [reflexivity|].
        by repeat constructor.
      * unfold DarkMode.create_color_set_json in H. rewrite El, Ed in H.
        discriminate.
    + unfold DarkMode.create_color_set_json in H. rewrite El in H. discriminate.
Qed.

Lemma alpha_and_info_fixed_witness :
  exists doc,
    ColorSets.create_color_set_json "greyWhite" "#FFFFFF" = Ok doc
    /\ Json.field "info" doc
       = Some (JDict [("author", JStr "xcode"); ("version", JInt 1)])
    /\ exists es, colors_of doc = Some es
         /\ Forall (fun e => component "alpha" e = Some (JStr "1.000")) es.
Proof.
  eexists. split; [reflexivity|].
  apply (alpha_and_info_fixed "greyWhite" "#FFFFFF" "" "").
  left. reflexivity.
Defined.

(** C8: in the colour table of each script no variant name occurs twice,
    across all families, so the output directories of the table entries
    are pairwise different. *)
Theorem variant_names_unique :
  NoDup (variant_names ColorSets.colors)
  /\ NoDup (variant_names DarkMode.colors)
  /\ NoDup (map (fun name => ColorSets.base_path +:+ "/" +:+ name +:+ ".colorset")
              (variant_names ColorSets.colors))
  /\ NoDup (map (fun name => DarkMode.base_path +:+ "/" +:+ name +:+ ".colorset")
              (variant_names DarkMode.colors)).
Proof.
  repeat split; apply (bool_decide_unpack _); vm_compute; reflexivity.
Qed.

(** C9: the two scripts agree on what they share.  The tables have the
    same families and the same variant names, in the same order; in the
    dark-mode table the [light] and the [dark] value of a variant are both
    the value the light-only table has for it; and for every name and
    value the dark-mode builder, given the value twice, returns the
    light-only document with one more [colors] entry, the first entry
    again with the dark selector, or raises what the light-only builder
    raises. *)
Theorem scripts_agree :
  map fst DarkMode.colors = map fst ColorSets.colors
  /\ variant_names DarkMode.colors = variant_names ColorSets.colors
  /\ map (fun '(name, modes) => (name, dark_modes modes)) (variants DarkMode.colors)
     = map (fun '(name, hex) => (name, (Ok hex, Ok hex))) (variants ColorSets.colors)
  /\ (forall color_name hex_value,
       DarkMode.create_color_set_json color_name hex_value hex_value
       = append_dark_copy <$> ColorSets.create_color_set_json color_name hex_value)
  /\ (forall color_name hex_value,
       match ColorSets.create_color_set_json color_name hex_value with
       | Ok doc =>
           exists e,
             colors_of doc = Some [e]
             /\ colors_of (append_dark_copy doc) = Some [e; tag_dark e]
             /\ Json.field "info" (append_dark_copy doc) = Json.field "info" doc
             /\ Json.field "color" (tag_dark e) = Json.field "color" e
             /\ Json.field "idiom" (tag_dark e) = Json.field "idiom" e
             /\ Json.field "appearances" (tag_dark e) = Some dark_selector
       | Raise _ => True
       end).
Proof.
  split; [reflexivity|]. split; [reflexivity|]. split; [reflexivity|].
  split; intros color_name hex_value;
    unfold DarkMode.create_color_set_json, ColorSets.create_color_set_json;
    destruct (hex_to_rgb hex_value) as [[[r g] b]|e]; try reflexivity.
  simpl. eexists. by repeat split.
Qed.

(** C6: a second run writes the same files.  When a run of the generator
    returns, every variant's [Contents.json] holds exactly the serialized
    document of that variant, whatever the path held before, so its bytes
    depend on the colour table alone; a second run against the same base
    path returns too and leaves the whole file system as the first run
    left it. *)
Theorem rerun_is_identical (w w1 : world) :
  ColorSets.main w = Ok w1 ->
  (exists w2, ColorSets.main w1 = Ok w2 /\ fs w2 = fs w1)
  /\ (forall family color_variants color_name hex_value,
        (family, color_variants) ∈ ColorSets.colors ->
        (color_name, hex_value) ∈ color_variants ->
        exists doc,
          ColorSets.create_color_set_json color_name hex_value = Ok doc
          /\ fs w1 !! contents_path color_name = Some (File (Json.dumps 2 doc))).
Proof.
  intros H. rewrite light_main_jobs in H. split.
  - apply (main_inv _ _ _ _ light_jobs_wf light_jobs_paths) in H
      as (_ & (w2 & Hrun & Hfs) & _).
    exists w2. by rewrite light_main_jobs.
  - intros family color_variants color_name hex_value Hf He.
    destruct light_table_facts as [Hanc Hfam].
    destruct (outputs_located ColorSets.colors light_job _ (fun _ => eq_refl)
                light_jobs_wf light_jobs_paths Hanc Hfam w w1 H) as [Hloc _].
    destruct (Hloc _ _ _ _ Hf He) as (Hfile & _).
    pose proof light_documents_ok as Hok. rewrite forallb_forall in Hok.
    destruct (text_of_ok (light_document_of (color_name, hex_value))) as (doc & Hdoc & Htext).
    { apply Hok, list_elem_of_In. eapply elem_of_variants; eassumption. }
    exists doc. split; [exact Hdoc|].
    cbn [light_job job_text] in Hfile. by rewrite Htext in Hfile.
Qed.

Lemma rerun_is_identical_witness :
  exists w1,
    ColorSets.main empty_world = Ok w1
    /\ (exists w2, ColorSets.main w1 = Ok w2 /\ fs w2 = fs w1)
    /\ (forall family color_variants color_name hex_value,
          (family, color_variants) ∈ ColorSets.colors ->
          (color_name, hex_value) ∈ color_variants ->
          exists doc,
            ColorSets.create_color_set_json color_name hex_value = Ok doc
            /\ fs w1 !! contents_path color_name = Some (File (Json.dumps 2 doc))).
Proof.
  assert (is_ok (ColorSets.main empty_world) = true) as Hok
    by (vm_compute; reflexivity).
  destruct (ColorSets.main empty_world) as [w1|e] eqn:E; [|discriminate].
  exists w1. split; [reflexivity|]. exact (rerun_is_identical empty_world w1 E).
Defined.



(** * Further properties of the decoder *)

(** X1: a valid hex colour (six hex digits, with or without the [#])
    always decodes, and each of its three channels lies in 0..255. *)
Theorem hex_color_channels_in_range (h : string) :
  is_hex_color h = true ->
  exists r g b, hex_to_rgb h = Ok (r, g, b)
    /\ is_channel r /\ is_channel g /\ is_channel b.
Proof.
  intros Hh. destruct (hex_color_digits h Hh) as [Hv ->].
  destruct (valid_hex6_inv _ Hv) as (c1 & c2 & c3 & c4 & c5 & c6 & -> & H1 & H2 & H3 & H4 & H5 & H6).
  rewrite hex_to_rgb_digits by assumption.
  eexists _, _, _. split; [reflexivity|].
  repeat split; first [apply (hex_pair_spec c1 c2) | apply (hex_pair_spec c3 c4)
                      | apply (hex_pair_spec c5 c6)]; assumption.
Qed.

Lemma hex_color_channels_in_range_witness :
  exists r g b, hex_to_rgb "#F5A300" = Ok (r, g, b)
    /\ is_channel r /\ is_channel g /\ is_channel b.
Proof. exact (hex_color_channels_in_range "#F5A300" eq_refl). Defined.

(** X2: whatever the input, a triple returned by [hex_to_rgb] has every
    channel between -15 and 255: a slice has at most two characters, so
    the largest value is that of [FF] and the smallest that of [-F].  A
    channel can thus be negative, which no hex colour has. *)
Theorem hex_to_rgb_channel_bounds (s : string) (r g b : Z) :
  hex_to_rgb s = Ok (r, g, b) ->
  -15 <= r <= 255 /\ -15 <= g <= 255 /\ -15 <= b <= 255.
Proof.
  intros H. apply hex_to_rgb_inv in H as (Hr & Hg & Hb).
  repeat split;
    first [ apply (int16_short_range _ _ (slice_length 0 2 _) Hr)
          | apply (int16_short_range _ _ (slice_length 2 4 _) Hg)
          | apply (int16_short_range _ _ (slice_length 4 6 _) Hb) ].
Qed.

Lemma hex_to_rgb_channel_bounds_witness :
  hex_to_rgb "#-fFF-3" = Ok (-15, 255, -3)
  /\ -15 <= -15 <= 255 /\ -15 <= 255 <= 255 /\ -15 <= -3 <= 255.
Proof.
  split; [reflexivity|].
  exact (hex_to_rgb_channel_bounds "#-fFF-3" (-15) 255 (-3) eq_refl).
Defined.

(** X3: the decoder does not look at the case of the letters: two valid
    hex colours that are equal once their letters are put in upper case
    decode to the same channels. *)
Theorem hex_to_rgb_ignores_case (h1 h2 : string) :
  is_hex_color h1 = true -> is_hex_color h2 = true ->
  Py.upper h1 = Py.upper h2 ->
  hex_to_rgb h1 = hex_to_rgb h2.
Proof.
  intros H1 H2 Hu.
  rewrite <- (hex_to_rgb_upper h1 H1), <- (hex_to_rgb_upper h2 H2).
  by rewrite Hu.
Qed.

Lemma hex_to_rgb_ignores_case_witness :
  hex_to_rgb "#a4b9ff" = hex_to_rgb "#A4B9Ff".
Proof.
  exact (hex_to_rgb_ignores_case "#a4b9ff" "#A4B9Ff" eq_refl eq_refl eq_refl).
Defined.

(** X4: the decoder reads six characters and no more: whatever text
    follows a valid hex colour, the result is that of the colour alone.
    An eight-digit [#RRGGBBAA] value is accepted and its last two digits
    are dropped without an error. *)
Theorem hex_to_rgb_ignores_tail (h t : string) :
  is_hex_color h = true -> hex_to_rgb (h +:+ t) = hex_to_rgb h.
Proof.
  intros Hh. destruct h as [|c s]; [discriminate|].
  unfold is_hex_color in Hh. destruct (Ascii.eqb c "#") eqn:Ec.
  - apply Ascii.eqb_eq in Ec as ->.
    destruct (valid_hex6_inv s Hh) as (c1 & c2 & c3 & c4 & c5 & c6 & -> & H1 & _).
    change (String "#" (String c1 (String c2 (String c3 (String c4 (String c5 (String c6 "")))))) +:+ t)
      with (hashes 1 +:+ String c1 (String c2 (String c3 (String c4 (String c5 (String c6 t)))))).
    change (String "#" (String c1 (String c2 (String c3 (String c4 (String c5 (String c6 "")))))))
      with (hashes 1 +:+ String c1 (String c2 (String c3 (String c4 (String c5 (String c6 "")))))).
    rewrite !hex_to_rgb_hashes. by apply hex_to_rgb_digits_then.
  - destruct (valid_hex6_inv _ Hh) as (c1 & c2 & c3 & c4 & c5 & c6 & E & H1 & _).
    rewrite E.
    change (String c1 (String c2 (String c3 (String c4 (String c5 (String c6 ""))))) +:+ t)
      with (String c1 (String c2 (String c3 (String c4 (String c5 (String c6 t)))))).
    by apply hex_to_rgb_digits_then.
Qed.

Lemma hex_to_rgb_ignores_tail_witness :
  hex_to_rgb "#1C274C80" = hex_to_rgb "#1C274C"
  /\ hex_to_rgb "#1C274C80" = Ok (28, 39, 76).
Proof.
  split; [|reflexivity].
  exact (hex_to_rgb_ignores_tail "#1C274C" "80" eq_refl).
Defined.

(** X5: what the builders write for a channel is read back by the
    decoder.  For channel values in 0..255, [int(., 16)] gives the value
    back from its text [0x] + two digits, and [hex_to_rgb] gives the
    three values back from [#] followed by their two-digit texts. *)
Theorem channel_text_reads_back (r g b : Z) :
  is_channel r -> is_channel g -> is_channel b ->
  (exists tr tg tb,
     channel r = JStr tr /\ channel g = JStr tg /\ channel b = JStr tb
     /\ Py.int16 tr = Ok r /\ Py.int16 tg = Ok g /\ Py.int16 tb = Ok b)
  /\ hex_to_rgb ("#" +:+ Py.format_02X r +:+ Py.format_02X g +:+ Py.format_02X b)
     = Ok (r, g, b).
Proof.
  intros Hr Hg Hb.
  destruct (format_02X_byte r Hr) as (a1 & b1 & F1 & A1 & B1 & V1 & I1).
  destruct (format_02X_byte g Hg) as (a2 & b2 & F2 & A2 & B2 & V2 & I2).
  destruct (format_02X_byte b Hb) as (a3 & b3 & F3 & A3 & B3 & V3 & I3).
  unfold channel. rewrite F1, F2, F3. split.
  - eexists _, _, _. by repeat split.
  - change ("#" +:+ pair a1 b1 +:+ pair a2 b2 +:+ pair a3 b3)
      with (hashes 1 +:+ String a1 (String b1 (String a2 (String b2 (String a3 (String b3 "")))))).
    rewrite hex_to_rgb_hashes, hex_to_rgb_digits by assumption.
    by rewrite V1, V2, V3.
Qed.

Lemma channel_text_reads_back_witness :
  (exists tr tg tb,
     channel 10 = JStr tr /\ channel 0 = JStr tg /\ channel 255 = JStr tb
     /\ Py.int16 tr = Ok 10 /\ Py.int16 tg = Ok 0 /\ Py.int16 tb = Ok 255)
  /\ hex_to_rgb ("#" +:+ Py.format_02X 10 +:+ Py.format_02X 0 +:+ Py.format_02X 255)
     = Ok (10, 0, 255).
Proof.
  apply (channel_text_reads_back 10 0 255); unfold is_channel; lia.
Defined.

(** * Further properties of the builders *)

(** X6: a builder fails only through the decoder.  The light-only
    builder returns a document exactly when its value decodes, the
    dark-mode builder exactly when both of its values decode; otherwise
    the exception is the decoder's [ValueError]. *)
Theorem builders_raise_with_decoder (color_name hex_value light_hex dark_hex : string) :
  match ColorSets.create_color_set_json color_name hex_value with
  | Ok _ => is_ok (hex_to_rgb hex_value) = true
  | Raise e => e = ValueError /\ hex_to_rgb hex_value = Raise ValueError
  end
  /\ match DarkMode.create_color_set_json color_name light_hex dark_hex with
     | Ok _ => is_ok (hex_to_rgb light_hex) = true
               /\ is_ok (hex_to_rgb dark_hex) = true
     | Raise e => e = ValueError
                  /\ (hex_to_rgb light_hex = Raise ValueError
                      \/ hex_to_rgb dark_hex = Raise ValueError)
     end.
Proof.
  unfold ColorSets.create_color_set_json, DarkMode.create_color_set_json. split.
  - destruct (hex_to_rgb hex_value) as [[[r g] b]|e] eqn:E; [reflexivity|].
    pose proof (hex_to_rgb_error _ _ E) as ->. by rewrite bind_raise.
  - destruct (hex_to_rgb light_hex) as [[[r g] b]|e] eqn:E.
    + destruct (hex_to_rgb dark_hex) as [[[r' g'] b']|e] eqn:E'; [by split|].
      pose proof (hex_to_rgb_error _ _ E') as ->. split; [reflexivity | by right].
    + pose proof (hex_to_rgb_error _ _ E) as ->. rewrite bind_raise. by split; [|left].
Qed.

(** X7: the dark-mode builder is the light-only builder used twice.  For
    any two values, its result is the light-only document of the light
    value with one more [colors] entry, the entry of the light-only
    document of the dark value tagged with the dark selector; an
    exception of the light value comes first. *)
Theorem dark_builder_from_light (color_name light_hex dark_hex : string) :
  DarkMode.create_color_set_json color_name light_hex dark_hex
  = (light_doc ← ColorSets.create_color_set_json color_name light_hex;
     dark_doc ← ColorSets.create_color_set_json color_name dark_hex;
     Ok (with_dark light_doc dark_doc))
  /\ match ColorSets.create_color_set_json color_name light_hex,
           ColorSets.create_color_set_json color_name dark_hex with
     | Ok light_doc, Ok dark_doc =>
         exists e1 e2,
           colors_of light_doc = Some [e1]
           /\ colors_of dark_doc = Some [e2]
           /\ colors_of (with_dark light_doc dark_doc) = Some [e1; tag_dark e2]
           /\ Json.field "info" (with_dark light_doc dark_doc)
              = Json.field "info" light_doc
     | _, _ => True
     end.
Proof.
  unfold DarkMode.create_color_set_json, ColorSets.create_color_set_json.
  destruct (hex_to_rgb light_hex) as [[[r g] b]|e]; [|by split].
  destruct (hex_to_rgb dark_hex) as [[[r' g'] b']|e]; [|by split].
  split; [reflexivity|]. simpl. eexists _, _. by repeat split.
Qed.

(** * Further properties of the runs *)

(** X8: the console output of a run that returns.  The run appends to
    the output one line per variant, in the order of the table, naming
    the file written (with the note on the dark mode in the dark-mode
    script), and then the closing message: 62 lines in all. *)
Theorem run_prints_lines (w w1 : world) :
  (ColorSets.main w = Ok w1 ->
   stdout w1
   = (stdout w ++ map light_line (variant_names ColorSets.colors)
               ++ ["All color sets created successfully!"])%list
   /\ length (stdout w1) = (length (stdout w) + 62)%nat)
  /\ (DarkMode.main w = Ok w1 ->
      stdout w1
      = (stdout w ++ map dark_line (variant_names DarkMode.colors)
                  ++ ["All color sets with dark mode support created successfully!"])%list
      /\ length (stdout w1) = (length (stdout w) + 62)%nat).
Proof.
  split; intros H.
  - rewrite light_main_jobs in H.
    apply (main_inv _ _ _ _ light_jobs_wf light_jobs_paths) in H as (_ & _ & _ & Hout).
    rewrite light_lines in Hout. split; [exact Hout|].
    rewrite Hout, !length_app, length_map. reflexivity.
  - rewrite dark_main_jobs in H.
    apply (main_inv _ _ _ _ dark_jobs_wf dark_jobs_paths) in H as (_ & _ & _ & Hout).
    rewrite dark_lines in Hout. split; [exact Hout|].
    rewrite Hout, !length_app, length_map. reflexivity.
Qed.

Lemma run_prints_lines_witness :
  exists w1,
    ColorSets.main empty_world = Ok w1
    /\ stdout w1
       = (stdout empty_world ++ map light_line (variant_names ColorSets.colors)
            ++ ["All color sets created successfully!"])%list
    /\ length (stdout w1) = (length (stdout empty_world) + 62)%nat.
Proof.
  assert (is_ok (ColorSets.main empty_world) = true) as Hok
    by (vm_compute; reflexivity).
  destruct (ColorSets.main empty_world) as [w1|e] eqn:E; [|discriminate].
  exists w1. split; [reflexivity|].
  exact (proj1 (run_prints_lines empty_world w1) E).
Defined.

(** X9: when a run returns.  A run of either script returns exactly when
    nothing is in its way in the file system it starts from: neither
    [Assets] nor [Assets/Colors.xcassets] is a file, no colour-set
    directory of the table is a file, and no [Contents.json] of the table
    is a directory.  What else the file system holds does not matter; in
    particular directories and files left by an earlier run are accepted. *)
Theorem run_returns_iff (w : world) :
  is_ok (ColorSets.main w) = way_clear (variant_names ColorSets.colors) (fs w)
  /\ is_ok (DarkMode.main w) = way_clear (variant_names DarkMode.colors) (fs w).
Proof.
  split.
  - rewrite light_main_jobs, is_ok_run.
    rewrite (run_jobs_ok _ _ light_jobs_wf (paths_apart_inv _ light_jobs_apart)).
    apply (table_clear ColorSets.colors light_job (fun _ => eq_refl)
             (proj1 light_table_facts) light_variants).
  - rewrite dark_main_jobs, is_ok_run.
    rewrite (run_jobs_ok _ _ dark_jobs_wf (paths_apart_inv _ dark_jobs_apart)).
    apply (table_clear DarkMode.colors dark_job (fun _ => eq_refl)
             (proj1 dark_table_facts) dark_variants).
Qed.

(** X10: why a run fails, in the file system of this development: paths
    that are directories or plain files, with no permissions, symbolic
    links or limits of space, so that [os.makedirs] and [open] fail only
    on a file in the place of a directory or a directory in the place of
    a file.  There, an exception that ends a run of either script comes
    with its cause in the file system the run started from:
    [NotADirectoryError] with [Assets] or [Assets/Colors.xcassets] being
    a file, [FileExistsError] with the colour-set directory of a variant
    being a file, [IsADirectoryError] with the [Contents.json] of a
    variant being a directory.  The code of the scripts itself adds no
    exception: a run does not end with [ValueError] or [KeyError], since
    every value of the tables decodes and every variant has its [light]
    and [dark] key. *)
Theorem run_error_cause (w : world) (e : exn) :
  ColorSets.main w = Raise e \/ DarkMode.main w = Raise e ->
  (e = NotADirectoryError
   /\ is_file (fs w) "Assets" || is_file (fs w) "Assets/Colors.xcassets" = true)
  \/ exists color_name,
       color_name ∈ variant_names ColorSets.colors
       /\ ((e = FileExistsError /\ is_file (fs w) (colorset_dir color_name) = true)
           \/ (e = IsADirectoryError
               /\ is_dir (fs w) (contents_path color_name) = true)).
Proof.
  intros [H|H].
  - rewrite light_main_jobs in H. apply run_raise in H.
    apply (run_jobs_cause _ _ _ light_jobs_wf (paths_apart_inv _ light_jobs_apart))
      in H as (j & Hj & Hc).
    apply list_elem_of_fmap in Hj as (entry & -> & Hin).
    apply (table_cause ColorSets.colors light_job (fun _ => eq_refl)
             (proj1 light_table_facts) _ _ _ Hin) in Hc as [Hc|Hc]; [by left|].
    right. exists entry.1. split; [by apply list_elem_of_fmap_2 | exact Hc].
  - rewrite dark_main_jobs in H. apply run_raise in H.
    apply (run_jobs_cause _ _ _ dark_jobs_wf (paths_apart_inv _ dark_jobs_apart))
      in H as (j & Hj & Hc).
    apply list_elem_of_fmap in Hj as (entry & -> & Hin).
    apply (table_cause DarkMode.colors dark_job (fun _ => eq_refl)
             (proj1 dark_table_facts) _ _ _ Hin) in Hc as [Hc|Hc]; [by left|].
    right. exists entry.1. split; [|exact Hc].
    rewrite <- same_variant_names. by apply list_elem_of_fmap_2.
Qed.

Lemma run_error_cause_witness :
  ColorSets.main
    (world_of [("Assets", Dir);
               ("Assets/Colors.xcassets", Dir);
               ("Assets/Colors.xcassets/navy500.colorset", Dir);
               ("Assets/Colors.xcassets/navy500.colorset/Contents.json", Dir)])
  = Raise IsADirectoryError
  /\ exists color_name,
       color_name ∈ variant_names ColorSets.colors
       /\ is_dir (fs (world_of
                        [("Assets", Dir);
                         ("Assets/Colors.xcassets", Dir);
                         ("Assets/Colors.xcassets/navy500.colorset", Dir);
                         ("Assets/Colors.xcassets/navy500.colorset/Contents.json", Dir)]))
                 (contents_path color_name) = true.
Proof.
  assert (ColorSets.main
            (world_of [("Assets", Dir);
                       ("Assets/Colors.xcassets", Dir);
                       ("Assets/Colors.xcassets/navy500.colorset", Dir);
                       ("Assets/Colors.xcassets/navy500.colorset/Contents.json", Dir)])
          = Raise IsADirectoryError) as H by (vm_compute; reflexivity).
  split; [exact H|].
  destruct (run_error_cause _ _ (or_introl H)) as [[He _]|(name & Hin & [[He _]|[_ Hd]])];
    [discriminate He | discriminate He | exists name; by split].
Defined.

(** X11: a file above the colour sets stops a run, in the file system
    of this development (directories and plain files, no permissions or
    symbolic links).  When [Assets] or [Assets/Colors.xcassets] is a
    file, a run of either script ends with [NotADirectoryError], and on
    that file system [os.makedirs] raises [NotADirectoryError] for the
    colour-set directory of every variant of the tables. *)
Theorem run_blocked_above (w : world) :
  is_file (fs w) "Assets" || is_file (fs w) "Assets/Colors.xcassets" = true ->
  ColorSets.main w = Raise NotADirectoryError
  /\ DarkMode.main w = Raise NotADirectoryError
  /\ (forall color_name,
        color_name ∈ variant_names ColorSets.colors
        \/ color_name ∈ variant_names DarkMode.colors ->
        Os.makedirs ("Assets/Colors.xcassets" +:+ "/" +:+ color_name +:+ ".colorset")
          (fs w)
        = Raise NotADirectoryError).
Proof.
  intros H. rewrite light_main_jobs, dark_main_jobs. split; [|split].
  - unfold light_jobs.
    by rewrite (table_blocked ColorSets.colors light_job (fun _ => eq_refl)
                  (proj1 light_table_facts) light_variants w H).
  - unfold dark_jobs.
    by rewrite (table_blocked DarkMode.colors dark_job (fun _ => eq_refl)
                  (proj1 dark_table_facts) dark_variants w H).
  - intros color_name Hin. rewrite same_variant_names in Hin.
    assert (color_name ∈ variant_names ColorSets.colors) as Hname by tauto.
    apply list_elem_of_fmap in Hname as (entry & -> & Hentry).
    apply makedirs_blocked.
    pose proof (table_ancestors ColorSets.colors light_job (fun _ => eq_refl)
                  (proj1 light_table_facts) entry Hentry) as Ha.
    change (job_dir (light_job entry))
      with ("Assets/Colors.xcassets" +:+ "/" +:+ entry.1 +:+ ".colorset") in Ha.
    rewrite Ha. cbn [existsb]. by rewrite orb_false_r.
Qed.

Lemma run_blocked_above_witness :
  ColorSets.main (world_of [("Assets", File "notes")]) = Raise NotADirectoryError
  /\ DarkMode.main (world_of [("Assets", File "notes")]) = Raise NotADirectoryError
  /\ Os.makedirs "Assets/Colors.xcassets/yellow50.colorset"
       (fs (world_of [("Assets", File "notes")]))
     = Raise NotADirectoryError.
Proof.
  destruct (run_blocked_above (world_of [("Assets", File "notes")]))
    as (Hl & Hd & Hm); [vm_compute; reflexivity|].
  split; [exact Hl|]. split; [exact Hd|].
  apply (Hm "yellow50"). left. vm_compute. set_solver.
Defined.





(** * The text of the output files *)

(** X14: the text written for a light-only document.  For a valid hex
    colour, the document serialised with an indentation of two is, byte
    for byte, the layout of the interface description: the keys in the
    order [colors], [info], the components in the order [alpha], [blue],
    [green], [red], each channel as [0x] and its two digits in upper
    case, and no line break at the end. *)
Theorem light_file_text (color_name h : string) :
  is_hex_color h = true ->
  let digits := Py.lstrip "#" h in
  exists doc,
    ColorSets.create_color_set_json color_name h = Ok doc
    /\ Json.dumps 2 doc
       = light_text ("0x" +:+ Py.upper (Py.slice 0 2 digits))
                    ("0x" +:+ Py.upper (Py.slice 2 4 digits))
                    ("0x" +:+ Py.upper (Py.slice 4 6 digits)).
Proof.
  intros Hh digits.
  destruct (hex_color_formats h Hh)
    as (c1 & c2 & c3 & c4 & c5 & c6 & E & Hrgb & F1 & F2 & F3 & Hesc).
  unfold digits. rewrite E.
  unfold ColorSets.create_color_set_json. rewrite Hrgb, bind_ok.
  eexists. split; [reflexivity|]. rewrite F1, F2, F3.
  pose proof (Hesc c1) as E1. pose proof (Hesc c2) as E2.
  pose proof (Hesc c3) as E3. pose proof (Hesc c4) as E4.
  pose proof (Hesc c5) as E5. pose proof (Hesc c6) as E6. clear Hesc.
  lazy -[Json.escape_char Py.upper_char].
  rewrite E1, E2, E3, E4, E5, E6 by set_solver. reflexivity.
Qed.

Lemma light_file_text_witness :
  exists doc,
    ColorSets.create_color_set_json "foo" "#112233" = Ok doc
    /\ Json.dumps 2 doc = light_text "0x11" "0x22" "0x33".
Proof. exact (light_file_text "foo" "#112233" eq_refl). Defined.

(** X15: the text written for a light + dark document.  For two valid
    hex colours, the serialised document is the layout of the light-only
    one with a second entry in [colors]: the [appearances] item with the
    dark selector, then the [color] and [idiom] items of the dark value. *)
Theorem dark_file_text (color_name light_hex dark_hex : string) :
  is_hex_color light_hex = true -> is_hex_color dark_hex = true ->
  let light := Py.lstrip "#" light_hex in
  let dark := Py.lstrip "#" dark_hex in
  exists doc,
    DarkMode.create_color_set_json color_name light_hex dark_hex = Ok doc
    /\ Json.dumps 2 doc
       = dark_text ("0x" +:+ Py.upper (Py.slice 0 2 light))
                   ("0x" +:+ Py.upper (Py.slice 2 4 light))
                   ("0x" +:+ Py.upper (Py.slice 4 6 light))
                   ("0x" +:+ Py.upper (Py.slice 0 2 dark))
                   ("0x" +:+ Py.upper (Py.slice 2 4 dark))
                   ("0x" +:+ Py.upper (Py.slice 4 6 dark)).
Proof.
  intros Hl Hd light dark.
  destruct (hex_color_formats light_hex Hl)
    as (c1 & c2 & c3 & c4 & c5 & c6 & E & Hrgb & F1 & F2 & F3 & Hesc).
  destruct (hex_color_formats dark_hex Hd)
    as (d1 & d2 & d3 & d4 & d5 & d6 & E' & Hrgb' & G1 & G2 & G3 & Hesc').
  unfold light, dark. rewrite E, E'.
  unfold DarkMode.create_color_set_json. rewrite Hrgb, bind_ok, Hrgb', bind_ok.
  eexists. split; [reflexivity|]. rewrite F1, F2, F3, G1, G2, G3.
  pose proof (Hesc c1) as E1. pose proof (Hesc c2) as E2.
  pose proof (Hesc c3) as E3. pose proof (Hesc c4) as E4.
  pose proof (Hesc c5) as E5. pose proof (Hesc c6) as E6. clear Hesc.
  pose proof (Hesc' d1) as D1. pose proof (Hesc' d2) as D2.
  pose proof (Hesc' d3) as D3. pose proof (Hesc' d4) as D4.
  pose proof (Hesc' d5) as D5. pose proof (Hesc' d6) as D6. clear Hesc'.
  lazy -[Json.escape_char Py.upper_char].
  rewrite E1, E2, E3, E4, E5, E6, D1, D2, D3, D4, D5, D6 by set_solver.
  reflexivity.
Qed.

Lemma dark_file_text_witness :
  exists doc,
    DarkMode.create_color_set_json "foo" "#112233" "#a4b9ff" = Ok doc
    /\ Json.dumps 2 doc
       = dark_text "0x11" "0x22" "0x33" "0xA4" "0xB9" "0xFF".
Proof. exact (dark_file_text "foo" "#112233" "#a4b9ff" eq_refl eq_refl). Defined.
